(** * Cross-validated training and hyperparameter search of [BaseModel]

    A shallow embedding of [src/models/base_model.py]: the class registry
    filled by [__init_subclass__], the fold step [_train_fold], the
    cross-validation loop [train] and [hyperparameter_search].

    Python objects that the code shares and mutates (data frames, the optuna
    study, the logging verbosity, the console) live in an explicit [World];
    every method is a function in a state-and-exception monad over it.
    The collaborators the file only calls (the classifier, sklearn's
    accuracy, the float arithmetic, optuna's sampler) are interfaces. *)

From stdpp Require Import base option list gmap strings fin_maps pretty.
From Stdlib Require Import Ascii ZArith QArith Lia.

Local Open Scope Z_scope.

(** ** Python exceptions and the monad *)

Inductive exn :=
| NotImplementedError (msg : string)
| KeyError (msg : string)
| ValueError (msg : string)
| IndexError (msg : string)
| TrialPruned
| OtherError (msg : string).

Inductive outcome (A : Type) :=
| Ok (a : A)
| Raise (e : exn).
Arguments Ok {A} a.
Arguments Raise {A} e.

Fixpoint outcome_mapM {A B} (f : A → outcome B) (l : list A) : outcome (list B) :=
  match l with
  | [] => Ok []
  | a :: l' =>
      match f a with
      | Raise e => Raise e
      | Ok b => match outcome_mapM f l' with
                | Raise e => Raise e
                | Ok bs => Ok (b :: bs)
                end
      end
  end.

(** A computation over a world [W]: it ends with a value or a raised
    exception, and in both cases leaves a world behind. *)
Definition M (W A : Type) : Type := W → outcome A * W.

Definition ret {W A} (a : A) : M W A := λ w, (Ok a, w).
Definition raise {W A} (e : exn) : M W A := λ w, (Raise e, w).
Definition lift {W A} (o : outcome A) : M W A := λ w, (o, w).
Definition bind {W A B} (m : M W A) (k : A → M W B) : M W B :=
  λ w, match m w with
       | (Ok a, w') => k a w'
       | (Raise e, w') => (Raise e, w')
       end.

Notation "x <~ m ;; k" := (bind m (λ x, k))
  (at level 100, m at next level, right associativity,
   format "'[v' x  <~  m  ;; '/' k ']'").
Notation "m ;;; k" := (bind m (λ _, k))
  (at level 100, right associativity,
   format "'[v' m  ;;; '/' k ']'").

(** References to heap objects. *)
Definition loc := nat.

(** ** The class registry *)

(** A class object: its qualified name, its base class and the value that
    attribute lookup finds for [name] (the class body's own binding, or the
    one inherited from the base). *)
Record PyClass := {
  cls_qualname : string;
  cls_base : option nat;
  cls_name : option string;
}.

(** The interpreter state the registry lives in: the classes created so far
    (a class is identified by its position) and [BaseModel.REGISTRY]. *)
Record Interp := {
  classes : list PyClass;
  REGISTRY : gmap string nat;
}.

(** [cls.name]. *)
Definition getattr_name (cls : nat) (i : Interp) : option string :=
  classes i !! cls ≫= cls_name.

Definition __init_subclass__ (cls : nat) (i : Interp) : Interp :=
  match getattr_name cls i with
  | Some name => {| classes := classes i; REGISTRY := <[name := cls]> (REGISTRY i) |}
  | None => i
  end.

(** A [class Q(base): ...] statement. [body] is what the class body binds
    [name] to: [None] when it has no binding, [Some None] for [name = None],
    [Some (Some s)] for [name = s]. Creating the class calls the hook. *)
Definition class_stmt (qualname : string) (base : nat)
    (body : option (option string)) (i : Interp) : nat * Interp :=
  let cls := length (classes i) in
  let attr := match body with
              | Some v => v
              | None => getattr_name base i
              end in
  let c := {| cls_qualname := qualname; cls_base := Some base; cls_name := attr |} in
  (cls, __init_subclass__ cls {| classes := classes i ++ [c]; REGISTRY := REGISTRY i |}).

(** The module as loaded up to line 26: [BaseModel] is class 0, [name = None]
    and an empty registry. *)
Definition BaseModel_cls : nat := 0%nat.
Definition interp0 : Interp :=
  {| classes := [ {| cls_qualname := "BaseModel"; cls_base := None; cls_name := None |} ];
     REGISTRY := ∅ |}.

(** A sequence of class statements, each naming its base. *)
Fixpoint class_stmts (l : list (string * nat * option (option string)))
    (i : Interp) : Interp :=
  match l with
  | [] => i
  | (q, b, body) :: l' => class_stmts l' (class_stmt q b body i).2
  end.

(** The last of the classes, numbered from [n], whose attribute [name] is
    the string [s]. *)
Fixpoint last_named_from (n : nat) (s : string) (cs : list PyClass) : option nat :=
  match cs with
  | [] => None
  | c :: cs' =>
      match last_named_from (S n) s cs' with
      | Some j => Some j
      | None => if decide (cls_name c = Some s) then Some n else None
      end
  end.

Definition last_named (s : string) (i : Interp) : option nat :=
  last_named_from 0 s (classes i).

(** ** The external interfaces *)

(** The types the code is generic in. *)
Class Types := {
  float : Type;      (* Python and numpy floats *)
  Label : Type;      (* values of the column "Transported" *)
  Feat : Type;       (* the remaining columns of one row *)
  PId : Type;        (* values of the column "PassengerId" *)
  XRow : Type;       (* one row of a features-only table *)
  Params : Type;     (* dict[str, Any] of hyperparameters *)
  FitKw : Type;      (* dict[str, Any] of extra fit arguments *)
  Clf : Type;        (* classifier objects *)
  Trial : Type;      (* optuna.Trial handles *)
}.

(** A cell of the object column ["preds"]: [pd.NA] or a number. *)
Inductive cell `{Types} :=
| NA
| Num (x : float).

(** A row of a training table: its index label, the typed columns
    ["kfold"] and ["Transported"], the column ["preds"] when the table has
    one, and the remaining columns. *)
Record Row `{Types} := {
  label : Z;
  kfold : Z;
  Transported : Label;
  preds : option cell;
  feats : Feat;
}.

(** A row of a test table. *)
Record TestRow `{Types} := {
  PassengerId : PId;
  tfeats : Feat;
}.

(** Float arithmetic as the code uses it: [0.0], [+=], [/ 5], the
    comparison optuna maximises with, its test for [nan], and the [: .4f]
    format. *)
Class FloatOps `{Types} := {
  fzero : float;
  fadd : float → float → float;
  fdiv : float → float → float;
  F_of_Z : Z → float;
  fltb : float → float → bool;
  fis_nan : float → bool;
  fmt4 : float → string;
}.

(** [DataFrame.drop(columns, axis=1)] seen from a row: what is left of it
    without the named columns. [feat_columns] are the names of the
    remaining columns, those that [feats] and [tfeats] hold. *)
Class Schema `{Types} := {
  row_view : list string → Row → XRow;
  test_view : list string → TestRow → XRow;
  feat_columns : list string;
}.

(** The [Classifier] protocol. [fit] mutates the classifier; the model
    returns the fitted one. [empty_kw] is the dict [{}] of no extra fit
    arguments. *)
Class Classifier `{Types} := {
  empty_kw : FitKw;
  fit : Clf → list XRow → list Label → FitKw → outcome Clf;
  predict : Clf → list XRow → outcome (list Label);
  predict_proba : Clf → list XRow → outcome (list (list float));
}.

(** [sklearn.metrics.accuracy_score(y_true, y_pred)]. *)
Class Metrics `{Types} := {
  accuracy_score : list Label → list Label → outcome float;
}.

Inductive TrialState `{Types} :=
| COMPLETE (value : float)
| PRUNED
| FAIL.

Record FrozenTrial `{Types} := {
  ft_trial : Trial;
  ft_state : TrialState;
}.

(** optuna's sampling side: [ask seed history] is the trial handle that a
    study with [TPESampler(seed=seed)] and [HyperbandPruner()] hands to the
    objective after [history]; [trial_params] reads the parameters recorded
    in a handle. *)
Class Optuna `{Types} := {
  ask : Z → list FrozenTrial → Trial;
  trial_params : Trial → Params;
}.

(** ** Data frames and the world *)

Section Model.
Context `{Types, !FloatOps, !Schema, !Classifier, !Metrics, !Optuna}.

Definition set_preds (c : option cell) (r : Row) : Row :=
  {| label := label r; kfold := kfold r; Transported := Transported r;
     preds := c; feats := feats r |}.

(** A [pd.DataFrame] by its columns: a training table, a test table, or a
    table of feature columns only. *)
Inductive DataFrame :=
| TrainFrame (rows : list Row)
| TestFrame (rows : list TestRow)
| XFrame (rows : list XRow).

(** An [optuna.Study]: the sampler's seed and the trials told so far. *)
Record Study := {
  sampler_seed : Z;
  trials : list FrozenTrial;
}.

Record World := {
  heap : gmap loc DataFrame;
  studies : gmap loc Study;
  verbosity : Z;
  stdout : list string;
}.

Definition set_heap (h : gmap loc DataFrame) (w : World) : World :=
  {| heap := h; studies := studies w; verbosity := verbosity w; stdout := stdout w |}.
Definition set_studies (s : gmap loc Study) (w : World) : World :=
  {| heap := heap w; studies := s; verbosity := verbosity w; stdout := stdout w |}.
Definition set_verb (v : Z) (w : World) : World :=
  {| heap := heap w; studies := studies w; verbosity := v; stdout := stdout w |}.

(** [print(line)]. *)
Definition print (line : string) : M World unit :=
  λ w, (Ok tt, {| heap := heap w; studies := studies w; verbosity := verbosity w;
                  stdout := stdout w ++ [line] |}).

(** Dereferencing. Python has no dangling references; a reference the heap
    does not hold is an error of the caller of the model. *)
Definition deref (l : loc) : M World DataFrame :=
  λ w, match heap w !! l with
       | Some d => (Ok d, w)
       | None => (Raise (OtherError "no such object"), w)
       end.

Definition alloc (d : DataFrame) : M World loc :=
  λ w, let l := fresh (dom (heap w)) in (Ok l, set_heap (<[l := d]> (heap w)) w).

Definition store (l : loc) (d : DataFrame) : M World unit :=
  λ w, (Ok tt, set_heap (<[l := d]> (heap w)) w).

(** *** pandas *)

(** [df.copy()]: a new object with the same contents. *)
Definition DataFrame_copy (df : loc) : M World loc :=
  d <~ deref df ;; alloc d.

(** [df.drop("PassengerId", axis=1)]: a new object; only a test table has
    the column. *)
Definition drop_PassengerId (df : loc) : M World loc :=
  d <~ deref df ;;
  match d with
  | TestFrame rows => alloc (XFrame (test_view ["PassengerId"] <$> rows))
  | _ => raise (KeyError "['PassengerId'] not found in axis")
  end.

(** The rows of a table that has the columns ["kfold"] and ["Transported"]. *)
Definition train_rows (df : loc) : M World (list Row) :=
  d <~ deref df ;;
  match d with
  | TrainFrame rows => ret rows
  | _ => raise (KeyError "kfold")
  end.

(** [df["preds"] = pd.NA], in place: every row gets the cell [pd.NA]. On a
    table without ["kfold"] the new column changes nothing the model sees:
    the next use of the table raises [KeyError]. *)
Definition setitem_preds_NA (df : loc) : M World unit :=
  d <~ deref df ;;
  match d with
  | TrainFrame rows => store df (TrainFrame (set_preds (Some NA) <$> rows))
  | _ => ret tt
  end.

(** The cell of a row in the column ["preds"], if the table has it. *)
Definition preds_cell (r : Row) : outcome cell :=
  match preds r with
  | Some c => Ok c
  | None => Raise (KeyError "preds")
  end.

(** [df["preds"].values]. *)
Definition getitem_preds (df : loc) : M World (list cell) :=
  rows <~ train_rows df ;;
  lift (outcome_mapM preds_cell rows).

(** The positions of the elements of a list that satisfy [P]. *)
Fixpoint positions {A} (P : A → Prop) `{!∀ x, Decision (P x)} (l : list A) : list nat :=
  match l with
  | [] => []
  | x :: l' => if decide (P x) then O :: (S <$> positions P l') else S <$> positions P l'
  end.

(** [index.get_loc(key)], as the positions it stands for: those of all the
    rows that carry the label, in the order of the table. An index need not
    be unique. A label that no row carries is a [KeyError]. *)
Definition get_loc (index : list Z) (key : Z) : outcome (list nat) :=
  match positions (λ x, x = key) index with
  | [] => Raise (KeyError "not in index")
  | ps => Ok ps
  end.

(** The positions [.loc[keys]] selects: key after key, each with all the
    rows of its label, like [Index.get_indexer_non_unique]. *)
Definition get_indexer (index : list Z) (keys : list Z) : outcome (list nat) :=
  match outcome_mapM (get_loc index) keys with
  | Ok pss => Ok (concat pss)
  | Raise e => Raise e
  end.

(** A table that gets a value in ["preds"] has the column everywhere:
    [pd.NA] where there was none. *)
Definition with_preds_column (r : Row) : Row :=
  match preds r with
  | Some _ => r
  | None => set_preds (Some NA) r
  end.

(** Writing the values at the positions, one after the other. *)
Definition iloc_set (rows : list Row) (writes : list (nat * float)) : list Row :=
  foldl (λ rs '(i, v), alter (set_preds (Some (Num v))) i rs) rows writes.

(** [df.loc[keys, "preds"] = values] on the rows of a table: the keys are
    resolved to positions, the number of positions must be the number of
    values, and each position gets its value. A key whose label the index
    repeats stands for several positions, so that there are more positions
    than keys and, with one value per key, a [ValueError]. *)
Definition loc_set_preds (rows : list Row) (keys : list Z) (values : list float)
    : outcome (list Row) :=
  match get_indexer (label <$> rows) keys with
  | Raise e => Raise e
  | Ok indexer =>
      if bool_decide (length indexer = length values)
      then Ok (iloc_set (with_preds_column <$> rows) (zip indexer values))
      else Raise (ValueError "Must have equal len keys and value when setting with an iterable")
  end.

Definition setitem_loc_preds (df : loc) (keys : list Z) (values : list float)
    : M World unit :=
  rows <~ train_rows df ;;
  rows' <~ lift (loc_set_preds rows keys values) ;;
  store df (TrainFrame rows').

(** The columns of a training table: the typed ones, ["preds"] if its
    rows have the cell, and the remaining ones. A table without rows is
    taken to have the column ["preds"]. *)
Definition has_preds_cell (r : Row) : bool :=
  match preds r with Some _ => true | None => false end.

Definition columns_of (rows : list Row) : list string :=
  ["Transported"; "kfold"]
  ++ (if forallb has_preds_cell rows then ["preds"] else [])
  ++ feat_columns.

(** The message of the [KeyError] of [drop]. *)
Definition not_found_in_axis (missing : list string) : string :=
  "[" +:+ String.concat ", " ((λ n, "'" +:+ n +:+ "'") <$> missing)
  +:+ "] not found in axis".

(** [sub.drop(drop, axis=1)] for a selection [sub] of the rows of [table],
    which has the columns of [table]: every name must be a column. *)
Definition DataFrame_drop (table : list Row) (drop : list string) (sub : list Row)
    : outcome (list XRow) :=
  match filter (λ n, n ∉ columns_of table) drop with
  | [] => Ok (row_view drop <$> sub)
  | missing => Raise (KeyError (not_found_in_axis missing))
  end.

(** The rows a classifier gets from a table passed as it is. *)
Definition as_X (d : DataFrame) : list XRow :=
  match d with
  | TrainFrame rows => row_view [] <$> rows
  | TestFrame rows => test_view [] <$> rows
  | XFrame rows => rows
  end.

(** *** numpy *)

(** [a[:, j]] of a two-dimensional array given by its rows. *)
Definition column (j : nat) (a : list (list float)) : outcome (list float) :=
  outcome_mapM (λ row, match row !! j with
                       | Some x => Ok x
                       | None => Raise (IndexError "index is out of bounds for axis 1")
                       end) a.

(** [np.vstack] of one-dimensional arrays: they must have one length. *)
Definition np_vstack (arrays : list (list float)) : outcome (list (list float)) :=
  match arrays with
  | [] => Raise (ValueError "need at least one array to concatenate")
  | a :: rest =>
      if forallb (λ b, bool_decide (length b = length a)) rest
      then Ok arrays
      else Raise (ValueError "all the input array dimensions must match exactly")
  end.

(** [np.mean(m, axis=0)]: the rows are added up element by element and the
    sums divided by the number of rows. *)
Definition np_mean_axis0 (m : list (list float)) : list float :=
  match m with
  | [] => []
  | r0 :: rest =>
      (λ s, fdiv s (F_of_Z (Z.of_nat (length m)))) <$> foldl (zip_with fadd) r0 rest
  end.

(** *** The model object *)

(** A model instance with the methods a subclass may override. A bound
    method takes no [self]. The trial handle is a mutable object that the
    objective's [trial.suggest_*] calls record parameters in: an objective
    returns the handle as it left it, together with its score. *)
Record Model := {
  train_df : loc;
  test_df : loc;
  preprocess_datasets : M World (loc * loc);
  objective : Trial → loc → loc → M World (Trial * float);
  init_classifier : Params → outcome Clf;
  extra_fit_parameters :
    list XRow → list Label → list XRow → list Label → Params → outcome FitKw;
}.

(** [BaseModel(train_df, test_df)]: the methods as the base class has them. *)
Definition BaseModel (train_df test_df : loc) : Model :=
  {| train_df := train_df;
     test_df := test_df;
     preprocess_datasets := ret (train_df, test_df);
     objective := λ _ _ _,
       raise (NotImplementedError "Base classes need to implement objective().");
     init_classifier := λ _,
       Raise (NotImplementedError "Base classes need to implement init_classifier().");
     extra_fit_parameters := λ _ _ _ _ _, Ok empty_kw |}.

(** The line [_train_fold] prints: the fold number from 1 and [{acc: .4f}]. *)
Definition fold_line (fold : Z) (acc : float) : string :=
  String "009"%char ("Fold " +:+ pretty (fold + 1) +:+ " - Accuracy = " +:+ fmt4 acc).

Definition overall_line (acc : float) : string :=
  String "009"%char ("Overall accuracy = " +:+ fmt4 acc).

Definition _train_fold (self : Model) (df test_df : loc) (fold : Z)
    (params : Params) (drop : list string) (verbose : bool)
    : M World (list float * float) :=
  rows <~ train_rows df ;;
  let train := filter (λ r, kfold r ≠ fold) rows in
  let y_train := Transported <$> train in
  X_train <~ lift (DataFrame_drop rows drop train) ;;
  let val := filter (λ r, kfold r = fold) rows in
  let y_val := Transported <$> val in
  X_val <~ lift (DataFrame_drop rows drop val) ;;
  clf <~ lift (init_classifier self params) ;;
  fit_params <~ lift (extra_fit_parameters self X_train y_train X_val y_val params) ;;
  clf <~ lift (fit clf X_train y_train fit_params) ;;
  val_pred <~ lift (predict clf X_val) ;;
  acc <~ lift (accuracy_score y_val val_pred) ;;
  (if verbose then print (fold_line fold acc) else ret tt) ;;;
  val_proba <~ lift (predict_proba clf X_val) ;;
  val_proba1 <~ lift (column 1 val_proba) ;;
  setitem_loc_preds df (label <$> val) val_proba1 ;;;
  test <~ deref test_df ;;
  test_proba <~ lift (predict_proba clf (as_X test)) ;;
  test_proba1 <~ lift (column 1 test_proba) ;;
  ret (test_proba1, acc).

(** The body of [for fold in range(5)], over the folds still to run, with
    the accumulators [total_acc] and [test_preds]. *)
Fixpoint train_loop (self : Model) (df test_df : loc) (params : Params)
    (drop : list string) (verbose : bool) (folds : list Z)
    (total_acc : float) (test_preds : list (list float))
    : M World (float * list (list float)) :=
  match folds with
  | [] => ret (total_acc, test_preds)
  | fold :: folds' =>
      r <~ _train_fold self df test_df fold params drop verbose ;;
      let '(test_pred, acc) := r in
      train_loop self df test_df params drop verbose folds'
        (fadd total_acc acc) (test_preds ++ [test_pred])
  end.

(** [range(5)]. *)
Definition range5 : list Z := [0; 1; 2; 3; 4].

Definition train (self : Model) (df test_df : loc) (params : Params)
    (verbose : bool) : M World (list cell * list float * float) :=
  df <~ DataFrame_copy df ;;
  test_df <~ drop_PassengerId test_df ;;
  setitem_preds_NA df ;;;
  let drop := ["Transported"; "preds"; "kfold"] in
  r <~ train_loop self df test_df params drop verbose range5 fzero [] ;;
  let '(total_acc, test_preds) := r in
  let acc := fdiv total_acc (F_of_Z 5) in
  (if verbose then print (overall_line acc) else ret tt) ;;;
  test_preds <~ lift (np_vstack test_preds) ;;
  let test_preds := np_mean_axis0 test_preds in
  oof <~ getitem_preds df ;;
  ret (oof, test_preds, acc).

(** *** optuna *)

(** [optuna.logging.WARNING]. *)
Definition WARNING : Z := 30.

Definition get_verbosity : M World Z := λ w, (Ok (verbosity w), w).
Definition set_verbosity (v : Z) : M World unit := λ w, (Ok tt, set_verb v w).

(** [optuna.create_study(sampler=TPESampler(seed=seed), pruner=
    HyperbandPruner(), direction="maximize")]: a new study without trials. *)
Definition create_study (seed : Z) : M World loc :=
  λ w, let s := fresh (dom (studies w)) in
       (Ok s, set_studies (<[s := {| sampler_seed := seed; trials := [] |}]> (studies w)) w).

Definition get_study (study : loc) : M World Study :=
  λ w, match studies w !! study with
       | Some s => (Ok s, w)
       | None => (Raise (OtherError "no such object"), w)
       end.

(** The study records a finished trial. *)
Definition tell (study : loc) (t : Trial) (st : TrialState) : M World unit :=
  s <~ get_study study ;;
  λ w, (Ok tt, set_studies (<[study := {| sampler_seed := sampler_seed s;
           trials := trials s ++ [ {| ft_trial := t; ft_state := st |} ] |}]> (studies w)) w).

(** [study.optimize(func, n_trials=n)] with the default [catch=()]: one
    trial after the other. A trial whose objective returns a number is
    recorded as complete with it; one that returns [nan] is recorded as a
    failure and the study goes on; one that raises [TrialPruned] is
    recorded as pruned; any other exception is recorded as a failure and
    stops the study by leaving [optimize]. *)
Fixpoint optimize_loop (study : loc) (func : Trial → M World (Trial * float))
    (n : nat) : M World unit :=
  match n with
  | O => ret tt
  | S n' =>
      s <~ get_study study ;;
      let trial := ask (sampler_seed s) (trials s) in
      λ w, match func trial w with
           | (Ok (trial', value), w') =>
               (tell study trial' (if fis_nan value then FAIL else COMPLETE value) ;;;
                optimize_loop study func n') w'
           | (Raise TrialPruned, w') =>
               (tell study trial PRUNED ;;; optimize_loop study func n') w'
           | (Raise e, w') =>
               (tell study trial FAIL ;;; raise e) w'
           end
  end.

Definition optimize (study : loc) (func : Trial → M World (Trial * float))
    (n_trials : Z) : M World unit :=
  optimize_loop study func (Z.to_nat n_trials).

(** The first of the completed trials with the largest value. *)
Definition best_trial (ts : list FrozenTrial) : option (Trial * float) :=
  foldl (λ best t,
           match ft_state t, best with
           | COMPLETE v, Some (_, b) => if fltb b v then Some (ft_trial t, v) else best
           | COMPLETE v, None => Some (ft_trial t, v)
           | _, _ => best
           end) None ts.

(** [study.best_params]. *)
Definition best_params (study : loc) : M World Params :=
  s <~ get_study study ;;
  match best_trial (trials s) with
  | Some (t, _) => ret (trial_params t)
  | None => raise (ValueError "No trials are completed yet.")
  end.

Definition hyperparameter_search (self : Model) (n_trials : Z) : M World Params :=
  dfs <~ preprocess_datasets self ;;
  let '(train_df, test_df) := dfs in
  let objective := λ trial, objective self trial train_df test_df in
  study <~ create_study 42 ;;
  v <~ get_verbosity ;;
  set_verbosity WARNING ;;;
  optimize study objective n_trials ;;;
  set_verbosity v ;;;
  best_params study.

(** *** Vocabulary of the statements *)

(** The values [vs] handed out, in order, to the elements that satisfy [P]:
    such an element [x] becomes [f v x], any other one [g x]. *)
Fixpoint scatter {A V} (P : A → Prop) `{!∀ x, Decision (P x)}
    (f : V → A → A) (g : A → A) (l : list A) (vs : list V) : list A :=
  match l with
  | [] => []
  | x :: l' =>
      if decide (P x)
      then match vs with
           | v :: vs' => f v x :: scatter P f g l' vs'
           | [] => g x :: scatter P f g l' []
           end
      else g x :: scatter P f g l' vs
  end.

(** What the keys of the selection of the rows that satisfy [P] resolve
    to in the index of the table. *)
Definition own_indexer (P : Row → Prop) `{!∀ r, Decision (P r)} (rows : list Row)
    : list nat :=
  concat ((λ k, positions (λ x, x = k) (label <$> rows)) <$> (label <$> filter P rows)).

(** The positions that the assignment [df.loc[val.index, "preds"] = ...] of
    [_train_fold] resolves its keys to, in a world where it is about to run
    for [fold]. *)
Definition loc_targets (df : loc) (fold : Z) (w : World) : list nat :=
  match heap w !! df with
  | Some (TrainFrame rows) =>
      match get_indexer (label <$> rows) (label <$> filter (λ r, kfold r = fold) rows) with
      | Ok indexer => indexer
      | Raise _ => []
      end
  | _ => []
  end.

(** The cell of ["preds"] at a position of the table at [df]. *)
Definition preds_at (df : loc) (i : nat) (w : World) : option cell :=
  match heap w !! df with
  | Some (TrainFrame rows) => rows !! i ≫= preds
  | _ => None
  end.

(** One Fold Training Step that returned: its fold, the world it started
    in, what it returned and the world it left. *)
Record FoldStep := {
  st_fold : Z;
  st_before : World;
  st_pred : list float;
  st_acc : float;
  st_after : World;
}.

(** The steps of a run of the loop over [folds] in which every
    [_train_fold] returned, from the first world to the last. *)
Inductive folds_run (self : Model) (df test_df : loc) (params : Params)
    (drop : list string) (verbose : bool) : list Z → World → list FoldStep → World → Prop :=
| folds_run_nil w :
    folds_run self df test_df params drop verbose [] w [] w
| folds_run_cons fold folds w tp acc w1 steps w' :
    _train_fold self df test_df fold params drop verbose w = (Ok (tp, acc), w1) →
    folds_run self df test_df params drop verbose folds w1 steps w' →
    folds_run self df test_df params drop verbose (fold :: folds) w
      ({| st_fold := fold; st_before := w; st_pred := tp; st_acc := acc; st_after := w1 |}
       :: steps) w'.

(** The columns [train] drops from the features. *)
Definition train_drop : list string := ["Transported"; "preds"; "kfold"].

(** The contract of [predict_proba] on shapes: one row of probabilities
    for each sample. *)
Definition proba_per_row : Prop :=
  ∀ clf X proba, predict_proba clf X = Ok proba → length proba = length X.

(** A label that an index carries at one position at most. *)
Definition occurs_once (k : Z) (index : list Z) : Prop :=
  ∀ i j, index !! i = Some k → index !! j = Some k → i = j.

(** The rows that some fold of 0 .. 4 holds out share their label with no
    other row of the table. *)
Definition held_out_labels_unique (rows : list Row) : Prop :=
  ∀ r, r ∈ rows → 0 ≤ kfold r < 5 → occurs_once (label r) (label <$> rows).

(** A row of the working copy: the caller's row [r] with a cell of
    ["preds"]. *)
Definition working_row (r rk : Row) : Prop := ∃ c, rk = set_preds (Some c) r.

(** What a Fold Training Step for [fold] that returned [(tp, acc)] has done
    on a table with the rows [rows], from world [w] to world [w']:
    the columns to drop were columns of the table;
    a classifier made by [init_classifier] was fitted on the rows whose
    fold index is not [fold]; [acc] is the accuracy of its predictions on
    the rows whose fold index is [fold] against their labels; these rows,
    and no others, got their entry of column 1 of [predict_proba] written
    to ["preds"]; [tp] is column 1 of [predict_proba] on the test table,
    one entry for each of its rows. *)
Definition fold_step_post (self : Model) (df test_df : loc) (fold : Z)
    (params : Params) (drop : list string) (w : World) (rows : list Row)
    (tp : list float) (acc : float) (w' : World) : Prop :=
  let train := filter (λ r, kfold r ≠ fold) rows in
  let val := filter (λ r, kfold r = fold) rows in
  ∃ clf0 fit_params clf val_pred val_proba val_proba1 rows' test test_proba,
    (∀ n, n ∈ drop → n ∈ columns_of rows) ∧
    init_classifier self params = Ok clf0 ∧
    extra_fit_parameters self (row_view drop <$> train) (Transported <$> train)
      (row_view drop <$> val) (Transported <$> val) params = Ok fit_params ∧
    fit clf0 (row_view drop <$> train) (Transported <$> train) fit_params = Ok clf ∧
    predict clf (row_view drop <$> val) = Ok val_pred ∧
    accuracy_score (Transported <$> val) val_pred = Ok acc ∧
    predict_proba clf (row_view drop <$> val) = Ok val_proba ∧
    column 1 val_proba = Ok val_proba1 ∧
    length val_proba1 = length val ∧
    heap w' = <[df := TrainFrame rows']> (heap w) ∧
    length rows' = length rows ∧
    (∀ i r, rows !! i = Some r → kfold r = fold →
       ∃ v, val_proba1 !! length (filter (λ r, kfold r = fold) (take i rows)) = Some v ∧
            rows' !! i = Some (set_preds (Some (Num v)) r)) ∧
    (∀ i r, rows !! i = Some r → kfold r ≠ fold →
       rows' !! i = Some (with_preds_column r)) ∧
    heap w' !! test_df = Some test ∧
    predict_proba clf (as_X test) = Ok test_proba ∧
    column 1 test_proba = Ok tp ∧
    length tp = length (as_X test).

(** The first three statements of [train]: the working copy, the test
    table without ["PassengerId"], and the column ["preds"] of [pd.NA]. *)
Definition train_setup (df test_df : loc) : M World (loc * loc) :=
  df <~ DataFrame_copy df ;;
  test_df <~ drop_PassengerId test_df ;;
  setitem_preds_NA df ;;;
  ret (df, test_df).

(** The Fold Training Steps of a run of [train] from world [w]: [steps]
    are the steps for the folds 0 .. 4, run one after the other on the
    working copy [df'] and the test table that [train]'s first statements
    made. *)
Definition train_steps (self : Model) (df test_df : loc) (params : Params)
    (verbose : bool) (w : World) (df' : loc) (steps : list FoldStep) : Prop :=
  ∃ test_df' w0 w1,
    train_setup df test_df w = (Ok (df', test_df'), w0) ∧
    folds_run self df' test_df' params train_drop verbose range5 w0 steps w1.

(** The state of a row of the working copy while the loop runs: it is the
    caller's row [r] but for its cell of ["preds"], which is a number if the
    fold of the row is among those already run ([D]) and [pd.NA] if not. *)
Definition cv_state (D : Z → Prop) (r rk : Row) : Prop :=
  ∃ c, rk = set_preds (Some c) r ∧
       (D (kfold r) → ∃ v, c = Num v) ∧ (¬ D (kfold r) → c = NA).

(** The out-of-fold vector [oof] of a run of [train] on a table with the
    rows [rows] has one written value per row. Every entry is a number.
    The Fold Training Step whose fold is the row's fold index finds the
    row's cell still [pd.NA], its assignment goes to the row's position, and
    it leaves in the cell the number that is the row's entry of [oof]. Any
    other step's assignment does not go to the row's position, and the
    step leaves the cell as it found it. No assignment goes to a position
    twice. *)
Definition oof_written_once (self : Model) (df test_df : loc) (params : Params)
    (verbose : bool) (w : World) (rows : list Row) (oof : list cell) : Prop :=
  ∃ df' steps,
    train_steps self df test_df params verbose w df' steps ∧
    st_fold <$> steps = range5 ∧
    length oof = length rows ∧
    ∀ i r, rows !! i = Some r →
      (∃ v, oof !! i = Some (Num v)) ∧
      ∀ s, s ∈ steps →
        (i ∈ loc_targets df' (st_fold s) (st_before s) ↔ st_fold s = kfold r) ∧
        NoDup (loc_targets df' (st_fold s) (st_before s)) ∧
        (st_fold s = kfold r →
           preds_at df' i (st_before s) = Some NA ∧
           preds_at df' i (st_after s) = oof !! i) ∧
        (st_fold s ≠ kfold r →
           preds_at df' i (st_after s) = preds_at df' i (st_before s)).

(** A row whose fold index is none of 0 .. 4, in a run of [train]: its
    entry of [oof] is [pd.NA]. In every Fold Training Step its cell of
    ["preds"] is [pd.NA] before and after, the step's assignment does not
    go to its position, and the row, with that cell, is one of the rows
    whose features and labels the step's classifier is fitted on, the one
    whose accuracy the step returns. *)
Definition out_of_range_rows_unwritten (self : Model) (df test_df : loc)
    (params : Params) (verbose : bool) (w : World) (rows : list Row)
    (oof : list cell) : Prop :=
  ∃ df' steps,
    train_steps self df test_df params verbose w df' steps ∧
    st_fold <$> steps = range5 ∧
    ∀ i r, rows !! i = Some r → ¬ (0 ≤ kfold r < 5) →
      oof !! i = Some NA ∧
      ∀ s, s ∈ steps →
        preds_at df' i (st_before s) = Some NA ∧
        preds_at df' i (st_after s) = Some NA ∧
        (i ∉ loc_targets df' (st_fold s) (st_before s)) ∧
        ∃ rb clf0 fit_params clf val_pred,
          let train := filter (λ r, kfold r ≠ st_fold s) rb in
          let val := filter (λ r, kfold r = st_fold s) rb in
          heap (st_before s) !! df' = Some (TrainFrame rb) ∧
          rb !! i = Some (set_preds (Some NA) r) ∧
          train !! length (filter (λ r, kfold r ≠ st_fold s) (take i rb))
            = Some (set_preds (Some NA) r) ∧
          init_classifier self params = Ok clf0 ∧
          extra_fit_parameters self
            (row_view train_drop <$> train) (Transported <$> train)
            (row_view train_drop <$> val) (Transported <$> val) params
            = Ok fit_params ∧
          fit clf0 (row_view train_drop <$> train) (Transported <$> train) fit_params
            = Ok clf ∧
          predict clf (row_view train_drop <$> val) = Ok val_pred ∧
          accuracy_score (Transported <$> val) val_pred = Ok (st_acc s).

(** A computation that changes no heap object but those in [L]. *)
Definition touches_only {A} (L : loc → Prop) (m : M World A) : Prop :=
  ∀ w r w', m w = (r, w') → ∀ l, ¬ L l → heap w' !! l = heap w !! l.

(** The collaborators answer in the Fold Training Step for [fold] of a run
    on the rows [rows] and the test features [xs]: the factory makes a
    classifier, the hook gives its arguments, fitting on the in-fold rows
    succeeds, the predictions for the held-out rows have an accuracy, and
    the probabilities for the held-out rows and for the test table have at
    least two columns. *)
Definition fold_answers (self : Model) (params : Params) (rows : list Row)
    (xs : list XRow) (fold : Z) : Prop :=
  let train := filter (λ r, kfold r ≠ fold) rows in
  let val := filter (λ r, kfold r = fold) rows in
  ∃ clf0 fit_params clf val_pred acc val_proba test_proba,
    init_classifier self params = Ok clf0 ∧
    extra_fit_parameters self (row_view train_drop <$> train) (Transported <$> train)
      (row_view train_drop <$> val) (Transported <$> val) params = Ok fit_params ∧
    fit clf0 (row_view train_drop <$> train) (Transported <$> train) fit_params
      = Ok clf ∧
    predict clf (row_view train_drop <$> val) = Ok val_pred ∧
    accuracy_score (Transported <$> val) val_pred = Ok acc ∧
    predict_proba clf (row_view train_drop <$> val) = Ok val_proba ∧
    Forall (λ p, (2 ≤ length p)%nat) val_proba ∧
    predict_proba clf xs = Ok test_proba ∧
    Forall (λ p, (2 ≤ length p)%nat) test_proba.

(** No trial has run between two worlds: every study of the later one
    holds the trials it held in the earlier one, a new study none. *)
Definition no_trial_ran (w w' : World) : Prop :=
  ∀ s st, studies w' !! s = Some st →
    trials st = default [] (trials <$> studies w !! s).

(** [hyperparameter_search] fails with [NotImplementedError] before any
    trial runs. *)
Definition fails_before_any_trial (self : Model) (n_trials : Z) (w : World) : Prop :=
  ∃ msg w',
    hyperparameter_search self n_trials w = (Raise (NotImplementedError msg), w') ∧
    no_trial_ran w w'.

(** *** Vocabulary of the further statements *)

(** [train] after its first three statements. *)
Definition train_body (self : Model) (df test_df : loc) (params : Params)
    (verbose : bool) : M World (list cell * list float * float) :=
  r <~ train_loop self df test_df params train_drop verbose range5 fzero [] ;;
  let '(total_acc, test_preds) := r in
  let acc := fdiv total_acc (F_of_Z 5) in
  (if verbose then print (overall_line acc) else ret tt) ;;;
  test_preds <~ lift (np_vstack test_preds) ;;
  let test_preds := np_mean_axis0 test_preds in
  oof <~ getitem_preds df ;;
  ret (oof, test_preds, acc).

(** Tables by the columns the code asks them for. *)
Definition has_kfold (d : DataFrame) : bool :=
  match d with TrainFrame _ => true | _ => false end.

Definition has_PassengerId (d : DataFrame) : bool :=
  match d with TestFrame _ => true | _ => false end.

(** What a computation does to the world outside the heap: it leaves the
    verbosity and the studies alone and only adds lines to the console,
    none at all unless [verbose]. *)
Definition console_frame {A} (verbose : bool) (m : M World A) : Prop :=
  ∀ w r w', m w = (r, w') →
    verbosity w' = verbosity w ∧ studies w' = studies w ∧
    ∃ lines, stdout w' = stdout w ++ lines ∧ (verbose = false → lines = []).

(** Two worlds that hold the same training table and the same test table,
    each at its own references. *)
Definition same_tables (df1 test1 df2 test2 : loc) (w1 w2 : World) : Prop :=
  heap w1 !! df1 = heap w2 !! df2 ∧ heap w1 !! test1 = heap w2 !! test2.

(** Two computations that, run in worlds related by [I], end with the same
    result in worlds related by [I]. *)
Definition rel_M {A} (I : World → World → Prop) (m1 m2 : M World A) : Prop :=
  ∀ w1 w2, I w1 w2 → (m1 w1).1 = (m2 w2).1 ∧ I (m1 w1).2 (m2 w2).2.

End Model.

(** ** A concrete instance

    Rational numbers for floats and the classifier that
    [sklearn.dummy.DummyClassifier(strategy="prior")] is: it predicts the
    majority label of the rows it was fitted on and gives their fraction of
    positive labels as the positive-class probability. *)

Module Dummy.

Definition types : Types :=
  {| float := Q; Label := bool; Feat := Z; PId := nat; XRow := Z;
     Params := Z; FitKw := unit; Clf := Z * Z; Trial := Z |}.
#[local] Existing Instance types.

Definition float_ops : @FloatOps types :=
  @Build_FloatOps types
    0%Q
    (λ a b : Q, Qred (a + b))
    (λ a b : Q, Qred (a / b))
    inject_Z
    (λ a b : Q, match Qcompare a b with Lt => true | _ => false end)
    (λ _ : Q, false)
    (λ a : Q, pretty (Qnum a) +:+ "/" +:+ pretty (Zpos (Qden a))).

Definition schema : @Schema types :=
  @Build_Schema types (λ _ r, feats r) (λ _ r, tfeats r) ["x"].

(** The number of [true] labels and the number of labels. *)
Definition prior (y : list bool) : Z * Z :=
  (Z.of_nat (length (filter (λ b, b = true) y)), Z.of_nat (length y)).

Definition majority (c : Z * Z) : bool := bool_decide (c.2 < 2 * c.1).

Definition proba (c : Z * Z) : list Q :=
  let p := Qred (inject_Z c.1 / inject_Z c.2) in [Qred (1 - p); p].

Definition classifier : @Classifier types :=
  @Build_Classifier types
    tt
    (λ (_ : Z * Z) (_ : list Z) (y : list bool) (_ : unit), Ok (prior y))
    (λ (c : Z * Z) (X : list Z), Ok ((λ _, majority c) <$> X))
    (λ (c : Z * Z) (X : list Z), Ok ((λ _, proba c) <$> X)).

Definition metrics : @Metrics types :=
  @Build_Metrics types
    (λ y_true y_pred : list bool,
       if bool_decide (length y_true = length y_pred)
       then Ok (Qred (inject_Z (Z.of_nat (length (filter (λ p, p.1 = p.2) (zip y_true y_pred))))
                      / inject_Z (Z.of_nat (length y_true))))
       else Raise (ValueError "Found input variables with inconsistent numbers of samples")).

(** A sampler that suggests the seed plus the number of finished trials. *)
Definition optuna : @Optuna types :=
  @Build_Optuna types
    (λ seed (history : list (@FrozenTrial types)), seed + Z.of_nat (length history))
    (λ t : Z, t).

(** A subclass that implements [init_classifier]. *)
Definition DummyModel (train_df test_df : loc) : @Model types :=
  {| train_df := train_df;
     test_df := test_df;
     preprocess_datasets := ret (train_df, test_df);
     objective := objective (@BaseModel types classifier train_df test_df);
     init_classifier := λ _, Ok ((0, 0) : @Clf types);
     extra_fit_parameters := λ _ _ _ _ _, Ok (tt : @FitKw types) |}.

Definition row (l k : Z) (t : bool) : @Row types :=
  {| label := l; kfold := k; Transported := t; preds := None; feats := l |}.

(** Ten rows, the fold column cycling through 0..4 twice. *)
Definition df10 : list (@Row types) :=
  [ row 100 0 true; row 101 1 true; row 102 2 false; row 103 3 true; row 104 4 false;
    row 105 0 false; row 106 1 true; row 107 2 true; row 108 3 true; row 109 4 false ].

Definition test3 : list (@TestRow types) :=
  [ {| PassengerId := 1%nat; tfeats := 7 |};
    {| PassengerId := 2%nat; tfeats := 8 |};
    {| PassengerId := 3%nat; tfeats := 9 |} ].

(** A world with the two tables at references 0 and 1 and [INFO] logging. *)
Definition world0 (rows : list (@Row types)) : @World types :=
  {| heap := {[ 0%nat := TrainFrame rows; 1%nat := TestFrame test3 ]};
     studies := ∅; verbosity := 20; stdout := [] |}.

Definition model : Model := DummyModel 0%nat 1%nat.

#[local] Existing Instances float_ops schema classifier metrics optuna.

(** The tables as [train] hands them to its steps: the ten rows with a
    column ["preds"] of [pd.NA] and the test table without
    ["PassengerId"]. *)
Definition df10_NA : list Row := set_preds (Some NA) <$> df10.

Definition world_fold : World :=
  {| heap := {[ 0%nat := TrainFrame df10_NA;
                1%nat := XFrame (test_view ["PassengerId"] <$> test3) ]};
     studies := ∅; verbosity := 20; stdout := [] |}.

(** The Fold Training Step for fold 2 on them. *)
Definition fold2_run : outcome (list Q * Q) * World :=
  _train_fold model 0%nat 1%nat 2 (5 : Z)
    ["Transported"; "preds"; "kfold"] false world_fold.

(** Two more rows, with fold indices outside 0 .. 4. *)
Definition df12 : list Row := df10 ++ [ row 110 7 true; row 111 (-1) false ].

(** One more row, which repeats the label of another row: both have fold
    indices outside 0 .. 4. *)
Definition df13 : list Row := df12 ++ [ row 110 9 true ].

Definition train_run13 : outcome (list cell * list Q * Q) * World :=
  train model 0%nat 1%nat (5 : Z) false (world0 df13).

(** [train] on the ten rows, and on the twelve. *)
Definition train_run10 : outcome (list cell * list Q * Q) * World :=
  train model 0%nat 1%nat (5 : Z) false (world0 df10).

Definition train_run12 : outcome (list cell * list Q * Q) * World :=
  train model 0%nat 1%nat (5 : Z) false (world0 df12).

(** A subclass whose objective is the cross-validated accuracy. *)
Definition SearchModel (train_df test_df : loc) : Model :=
  {| train_df := train_df;
     test_df := test_df;
     preprocess_datasets := ret (train_df, test_df);
     objective := λ (trial : @Trial types) df test_df,
       r <~ train (DummyModel train_df test_df) df test_df trial false ;;
       ret (trial, r.2);
     init_classifier := λ _, Ok ((0, 0) : @Clf types);
     extra_fit_parameters := λ _ _ _ _ _, Ok (tt : @FitKw types) |}.

Definition search_run : outcome Z * World :=
  hyperparameter_search (SearchModel 0%nat 1%nat) 2 (world0 df10).

Definition base_search_run : outcome Z * World :=
  hyperparameter_search (BaseModel 0%nat 1%nat) 1 (world0 df10).

(** What these runs return. *)
Definition oof10 : list cell :=
  [ Num (5 # 8)%Q; Num (1 # 2)%Q; Num (5 # 8)%Q; Num (1 # 2)%Q; Num (3 # 4)%Q;
    Num (5 # 8)%Q; Num (1 # 2)%Q; Num (5 # 8)%Q; Num (1 # 2)%Q; Num (3 # 4)%Q ].

Definition oof12 : list cell :=
  [ Num (3 # 5)%Q; Num (1 # 2)%Q; Num (3 # 5)%Q; Num (1 # 2)%Q; Num (7 # 10)%Q;
    Num (3 # 5)%Q; Num (1 # 2)%Q; Num (3 # 5)%Q; Num (1 # 2)%Q; Num (7 # 10)%Q;
    NA; NA ].

Definition oof13 : list cell :=
  [ Num (7 # 11)%Q; Num (6 # 11)%Q; Num (7 # 11)%Q; Num (6 # 11)%Q; Num (8 # 11)%Q;
    Num (7 # 11)%Q; Num (6 # 11)%Q; Num (7 # 11)%Q; Num (6 # 11)%Q; Num (8 # 11)%Q;
    NA; NA; NA ].

Definition test_preds13 : list Q := [ (34 # 55)%Q; (34 # 55)%Q; (34 # 55)%Q ].
Definition acc13 : Q := (3 # 5)%Q.

Definition test_preds10 : list Q := [ (3 # 5)%Q; (3 # 5)%Q; (3 # 5)%Q ].
Definition test_preds12 : list Q := [ (29 # 50)%Q; (29 # 50)%Q; (29 # 50)%Q ].
Definition acc10 : Q := (1 # 5)%Q.

(** The ten rows with a column ["preds"] already filled, and a world that
    holds them and the test table at other references, among other things. *)
Definition df10_with_preds : list Row := set_preds (Some (Num 1%Q)) <$> df10.

Definition world1 : World :=
  {| heap := {[ 5%nat := TrainFrame df10_with_preds; 7%nat := TestFrame test3;
                0%nat := XFrame [] ]};
     studies := ∅; verbosity := 10; stdout := ["earlier output"] |}.

(** The ten rows and one more that repeats the label of a held-out row. *)
Definition df11_repeated : list Row := df10 ++ [ row 100 7 true ].

(** [train] on the ten rows, verbose. *)
Definition train_run10_verbose : outcome (list cell * list Q * Q) * World :=
  train model 0%nat 1%nat (5 : Z) true (world0 df10).

End Dummy.

(** * Properties *)

Section Properties.
Context `{Types, !FloatOps, !Schema, !Classifier, !Metrics, !Optuna}.

(** ** The monad *)

Lemma bind_Ok {W A B} (m : M W A) (k : A → M W B) w b w' :
  bind m k w = (Ok b, w') →
  ∃ a w1, m w = (Ok a, w1) ∧ k a w1 = (Ok b, w').
Proof.
  unfold bind. destruct (m w) as [[a|e] w1]; [eauto | discriminate].
Qed.

Lemma lift_Ok {W A} (o : outcome A) (w : W) a w' :
  lift o w = (Ok a, w') → o = Ok a ∧ w' = w.
Proof. unfold lift. intros [= -> ->]. done. Qed.

Lemma ret_Ok {W A} (x : A) (w : W) a w' :
  ret x w = (Ok a, w') → a = x ∧ w' = w.
Proof. unfold ret. intros [= -> ->]. done. Qed.

Lemma outcome_mapM_Ok {A B} (f : A → outcome B) l bs :
  outcome_mapM f l = Ok bs → Forall2 (λ a b, f a = Ok b) l bs.
Proof.
  revert bs. induction l as [|a l IH]; simpl; intros bs.
  - intros [= <-]. constructor.
  - destruct (f a) as [b|] eqn:Ha; [|discriminate].
    destruct (outcome_mapM f l) as [bs'|]; [|discriminate].
    intros [= <-]. constructor; auto.
Qed.

Lemma outcome_mapM_length {A B} (f : A → outcome B) l bs :
  outcome_mapM f l = Ok bs → length bs = length l.
Proof. intros Hm. symmetry. eapply Forall2_length, outcome_mapM_Ok, Hm. Qed.

(** ** Positions and scattered writes *)

Section Lists.
Context {A V : Type} (P : A → Prop) `{!∀ x, Decision (P x)}.
Implicit Types (l : list A) (vs : list V).

Lemma positions_length l : length (positions P l) = length (filter P l).
Proof.
  induction l as [|x l IH]; simpl; [done|].
  rewrite filter_cons. destruct (decide (P x)); simpl; rewrite length_fmap; lia.
Qed.

Lemma elem_of_positions l i :
  i ∈ positions P l ↔ ∃ x, l !! i = Some x ∧ P x.
Proof.
  revert i. induction l as [|x l IH]; intros i; simpl.
  - split; [intros Hi; inversion Hi | intros (? & ? & _); done].
  - destruct (decide (P x)) as [Hx|Hx].
    + rewrite elem_of_cons, list_elem_of_fmap. split.
      * intros [->|(j & -> & Hj)]; [by exists x|]. apply IH in Hj. done.
      * destruct i as [|i]; [by left|]. simpl. intros Hi. right.
        exists i. split; [done|]. by apply IH.
    + rewrite list_elem_of_fmap. split.
      * intros (j & -> & Hj). apply IH in Hj. done.
      * destruct i as [|i]; simpl.
        { intros (? & [= <-] & ?). done. }
        intros Hi. exists i. split; [done|]. by apply IH.
Qed.

Lemma NoDup_positions l : NoDup (positions P l).
Proof.
  induction l as [|x l IH]; simpl; [constructor|].
  assert (NoDup (S <$> positions P l)) by (apply NoDup_fmap; [intros ??; lia | done]).
  destruct (decide (P x)); [|done].
  constructor; [|done]. rewrite list_elem_of_fmap. intros (? & ? & _). done.
Qed.

Lemma scatter_length (f : V → A → A) g l vs :
  length (scatter P f g l vs) = length l.
Proof.
  revert vs. induction l as [|x l IH]; intros vs; simpl; [done|].
  destruct (decide (P x)); [destruct vs|]; simpl; by rewrite IH.
Qed.

Lemma scatter_lookup_other (f : V → A → A) g l vs i x :
  l !! i = Some x → ¬ P x → scatter P f g l vs !! i = Some (g x).
Proof.
  revert vs i. induction l as [|y l IH]; intros vs i; [done|].
  destruct i as [|i]; simpl.
  - intros [= ->] Hx. destruct (decide (P x)); done.
  - intros Hi Hx. destruct (decide (P y)); [destruct vs|]; simpl; eauto.
Qed.

(** The element at position [i] gets the value whose rank is the number of
    elements of [P] before [i]. *)
Lemma scatter_lookup_hit (f : V → A → A) g l vs i x :
  l !! i = Some x → P x → (length (filter P l) ≤ length vs)%nat →
  ∃ v, vs !! length (filter P (take i l)) = Some v ∧
       scatter P f g l vs !! i = Some (f v x).
Proof.
  revert vs i. induction l as [|y l IH]; intros vs i; [done|].
  rewrite filter_cons. destruct i as [|i]; simpl.
  - intros [= ->] Hx. destruct (decide (P x)); [|done]. simpl.
    destruct vs as [|v vs]; simpl; intros Hlen; [lia|]. by exists v.
  - intros Hi Hx. rewrite filter_cons. destruct (decide (P y)); simpl.
    + destruct vs as [|v vs]; simpl; intros Hlen; [lia|].
      apply (IH vs i); [done..|lia].
    + intros Hlen. by apply IH.
Qed.

Lemma scatter_nil (f : V → A → A) g l : scatter P f g l [] = g <$> l.
Proof.
  induction l as [|x l IH]; simpl; [done|].
  destruct (decide (P x)); by rewrite IH.
Qed.

End Lists.

(** ** pandas: label-based assignment *)

Lemma positions_filter_Forall2 {A} (P : A → Prop) `{!∀ x, Decision (P x)}
    (l : list A) :
  Forall2 (λ x i, l !! i = Some x) (filter P l) (positions P l).
Proof.
  induction l as [|x l IH]; [constructor|].
  assert (Forall2 (λ y i, (x :: l) !! i = Some y) (filter P l) (S <$> positions P l))
    as Htail.
  { apply Forall2_fmap_r. eapply Forall2_impl; [exact IH|]. done. }
  rewrite filter_cons. simpl. destruct (decide (P x)); [by constructor|done].
Qed.

Lemma filter_lookup_rank {A} (P : A → Prop) `{!∀ x, Decision (P x)} (l : list A) i x :
  l !! i = Some x → P x → filter P l !! length (filter P (take i l)) = Some x.
Proof.
  revert i. induction l as [|y l IH]; intros i; [done|].
  destruct i as [|i]; simpl.
  - intros [= ->] Hx. rewrite filter_cons. by destruct (decide (P x)).
  - intros Hi Hx. rewrite !filter_cons. destruct (decide (P y)); simpl; by apply IH.
Qed.

(** Keys that the index carries resolve, each to the positions of its
    label. *)
Lemma get_indexer_own index keys :
  (∀ k, k ∈ keys → k ∈ index) →
  get_indexer index keys
  = Ok (concat ((λ k, positions (λ x, x = k) index) <$> keys)).
Proof.
  intros Hkeys. unfold get_indexer.
  assert (outcome_mapM (get_loc index) keys
          = Ok ((λ k, positions (λ x, x = k) index) <$> keys)) as ->; [|done].
  induction keys as [|k keys IH]; [done|]. simpl.
  rewrite IH by (intros k' Hk'; apply Hkeys; by right).
  assert (k ∈ index) as Hk by (apply Hkeys; by left).
  apply list_elem_of_lookup_1 in Hk as [i Hi].
  assert (i ∈ positions (λ x, x = k) index) as Hin.
  { apply elem_of_positions. by exists k. }
  unfold get_loc. destruct (positions (λ x, x = k) index); [inversion Hin|done].
Qed.

Lemma get_indexer_filter (P : Row → Prop) `{!∀ r, Decision (P r)} rows :
  get_indexer (label <$> rows) (label <$> filter P rows) = Ok (own_indexer P rows).
Proof.
  apply get_indexer_own. intros k (r & -> & Hr)%list_elem_of_fmap.
  apply list_elem_of_filter in Hr as [_ Hr]. by apply list_elem_of_fmap_2.
Qed.

(** Pieces of which each holds its own target: together they are at least
    as many as the targets, and exactly the targets if they are as many. *)
Lemma concat_pieces (pss : list (list nat)) (ts : list nat) :
  Forall2 (λ ps t, t ∈ ps) pss ts →
  (length ts ≤ length (concat pss))%nat ∧
  (length (concat pss) = length ts → concat pss = ts).
Proof.
  induction 1 as [|ps t pss ts Ht _ [IHle IHeq]]; [done|].
  simpl. rewrite length_app.
  destruct ps as [|a [|b ps]]; [inversion Ht| |]; simpl.
  - apply list_elem_of_singleton in Ht as ->. split; [lia|].
    intros Hlen. f_equal. apply IHeq. lia.
  - split; [lia|]. intros Hlen. lia.
Qed.

Lemma concat_short (pss : list (list nat)) :
  Forall (λ ps, (length ps ≤ 1)%nat) pss → (length (concat pss) ≤ length pss)%nat.
Proof.
  induction 1 as [|ps pss Hps _ IH]; simpl; [done|]. rewrite length_app. lia.
Qed.

Lemma NoDup_occurs_once k index : NoDup index → occurs_once k index.
Proof. intros Hnd i j Hi Hj. by eapply NoDup_lookup. Qed.

Lemma occurs_once_positions k index :
  occurs_once k index → (length (positions (λ x, x = k) index) ≤ 1)%nat.
Proof.
  intros Honce.
  pose proof (NoDup_positions (λ x, x = k) index) as Hnd.
  assert (∀ i, i ∈ positions (λ x, x = k) index → index !! i = Some k) as Hall.
  { intros i (x & Hi & ->)%elem_of_positions. done. }
  destruct (positions (λ x, x = k) index) as [|a [|b ps]]; simpl; [lia..|].
  exfalso. apply NoDup_cons in Hnd as [Hab _]. apply Hab.
  rewrite (Honce a b); [by left|apply Hall..]; [by left|by right; left].
Qed.

Lemma positions_occurs_once k index :
  (length (positions (λ x, x = k) index) ≤ 1)%nat → occurs_once k index.
Proof.
  intros Hlen i j Hi Hj.
  assert (i ∈ positions (λ x, x = k) index) as Hi'
    by (apply elem_of_positions; by exists k).
  assert (j ∈ positions (λ x, x = k) index) as Hj'
    by (apply elem_of_positions; by exists k).
  destruct (positions (λ x, x = k) index) as [|a [|b ps]]; simpl in Hlen; [|..|lia].
  - inversion Hi'.
  - apply list_elem_of_singleton in Hi', Hj'. congruence.
Qed.

Lemma own_indexer_spec (P : Row → Prop) `{!∀ r, Decision (P r)} rows :
  (length (filter P rows) ≤ length (own_indexer P rows))%nat ∧
  (length (own_indexer P rows) = length (filter P rows) →
   own_indexer P rows = positions P rows).
Proof.
  rewrite <- positions_length. apply concat_pieces.
  apply Forall2_fmap_l, Forall2_fmap_l.
  eapply Forall2_impl; [apply positions_filter_Forall2|].
  intros r i Hi. simpl. apply elem_of_positions.
  exists (label r). by rewrite list_lookup_fmap, Hi.
Qed.

(** Held-out rows whose labels are not repeated resolve to their own
    positions. *)
Lemma own_indexer_unique (P : Row → Prop) `{!∀ r, Decision (P r)} rows :
  (∀ r, r ∈ rows → P r → occurs_once (label r) (label <$> rows)) →
  own_indexer P rows = positions P rows.
Proof.
  intros Honce. destruct (own_indexer_spec P rows) as [Hle Heq].
  apply Heq. apply Nat.le_antisymm; [|done].
  etrans; [apply concat_short|by rewrite !length_fmap].
  apply Forall_fmap, Forall_fmap, Forall_forall. intros r Hr. simpl.
  apply list_elem_of_filter in Hr as [HP Hr]. by apply occurs_once_positions, Honce.
Qed.

Lemma iloc_set_shift (r : Row) rows indexer (vs : list float) :
  iloc_set (r :: rows) (zip (S <$> indexer) vs) = r :: iloc_set rows (zip indexer vs).
Proof.
  unfold iloc_set. revert rows vs.
  induction indexer as [|i indexer IH]; intros rows vs; [done|].
  destruct vs as [|v vs]; [done|]. simpl. apply IH.
Qed.

Lemma set_preds_with_column c (r : Row) :
  set_preds c (with_preds_column r) = set_preds c r.
Proof. unfold with_preds_column. by destruct (preds r). Qed.

Lemma iloc_set_cons (rows : list Row) i v writes :
  iloc_set rows ((i, v) :: writes)
  = iloc_set (alter (set_preds (Some (Num v))) i rows) writes.
Proof. done. Qed.

Lemma iloc_set_positions (P : Row → Prop) `{!∀ r, Decision (P r)} rows vs :
  iloc_set (with_preds_column <$> rows) (zip (positions P rows) vs)
  = scatter P (λ v, set_preds (Some (Num v))) with_preds_column rows vs.
Proof.
  revert vs. induction rows as [|r rows IH]; intros vs; [done|].
  cbn [positions scatter]. destruct (decide (P r)).
  - destruct vs as [|v vs].
    + rewrite scatter_nil. done.
    + rewrite fmap_cons. cbn [zip zip_with]. rewrite iloc_set_cons. cbn [alter list_alter].
      rewrite iloc_set_shift, IH, set_preds_with_column. done.
  - rewrite fmap_cons, iloc_set_shift, IH. done.
Qed.

(** [df.loc[val.index, "preds"] = values] where [val] is the selection of
    the rows that satisfy [P], with labels that are not repeated or with
    one value per row of [val]: it wants as many values as [val] has rows
    and hands them out to these rows in order. *)
Lemma loc_set_preds_filter (P : Row → Prop) `{!∀ r, Decision (P r)} rows vs rows' :
  (∀ r, r ∈ rows → P r → occurs_once (label r) (label <$> rows))
  ∨ length vs = length (filter P rows) →
  loc_set_preds rows (label <$> filter P rows) vs = Ok rows' →
  length vs = length (filter P rows) ∧
  own_indexer P rows = positions P rows ∧
  rows' = scatter P (λ v, set_preds (Some (Num v))) with_preds_column rows vs.
Proof.
  intros Hor. unfold loc_set_preds. rewrite get_indexer_filter.
  case_bool_decide as Hlen; [|done]. intros [= <-].
  assert (own_indexer P rows = positions P rows) as Hown.
  { destruct Hor as [Honce|Hvs]; [by apply own_indexer_unique|].
    apply own_indexer_spec. congruence. }
  rewrite Hown in Hlen |- *. rewrite positions_length in Hlen.
  by rewrite iloc_set_positions.
Qed.

Lemma loc_set_preds_filter_Ok (P : Row → Prop) `{!∀ r, Decision (P r)} rows vs :
  (∀ r, r ∈ rows → P r → occurs_once (label r) (label <$> rows)) →
  length vs = length (filter P rows) →
  loc_set_preds rows (label <$> filter P rows) vs
  = Ok (scatter P (λ v, set_preds (Some (Num v))) with_preds_column rows vs).
Proof.
  intros Honce Hlen. unfold loc_set_preds.
  rewrite get_indexer_filter, own_indexer_unique by done.
  rewrite bool_decide_true by (by rewrite positions_length).
  by rewrite iloc_set_positions.
Qed.

(** Whatever an assignment to ["preds"] resolves to, it changes cells of
    ["preds"] only. *)
Lemma iloc_set_working rows rk (writes : list (nat * float)) :
  Forall2 working_row rows rk → Forall2 working_row rows (iloc_set rk writes).
Proof.
  unfold iloc_set. revert rk.
  induction writes as [|[i v] writes IH]; intros rk Hrk; [done|].
  simpl. apply IH. apply Forall2_alter_r; [done|].
  intros r r' _ _ [c ->]. by exists (Num v).
Qed.

Lemma loc_set_preds_working rows rk keys vs rk' :
  Forall2 working_row rows rk →
  loc_set_preds rk keys vs = Ok rk' →
  Forall2 working_row rows rk'.
Proof.
  intros Hrk. unfold loc_set_preds.
  destruct (get_indexer _ keys) as [indexer|]; [|done].
  case_bool_decide; [|done]. intros [= <-]. apply iloc_set_working.
  apply Forall2_fmap_r. eapply Forall2_impl; [exact Hrk|].
  intros r r' [c ->]. by exists c.
Qed.

(** ** The primitive operations on the world *)

Lemma deref_Ok l (w : World) d w' :
  deref l w = (Ok d, w') → heap w !! l = Some d ∧ w' = w.
Proof. unfold deref. destruct (heap w !! l); intros [= <- <-]; done. Qed.

Lemma train_rows_Ok df (w : World) rows w' :
  train_rows df w = (Ok rows, w') → heap w !! df = Some (TrainFrame rows) ∧ w' = w.
Proof.
  unfold train_rows. intros Hb. apply bind_Ok in Hb as (d & w1 & Hd & Hk).
  apply deref_Ok in Hd as [Hd ->].
  destruct d; try discriminate. apply ret_Ok in Hk as [-> ->]. done.
Qed.

Lemma print_verbose_Ok (verbose : bool) line (w : World) u w' :
  (if verbose then print line else ret tt) w = (Ok u, w') →
  heap w' = heap w ∧ studies w' = studies w ∧ verbosity w' = verbosity w ∧
  stdout w' = stdout w ++ (if verbose then [line] else []).
Proof.
  destruct verbose; unfold print, ret; intros [= <- <-]; simpl;
    rewrite ?app_nil_r; done.
Qed.

Lemma DataFrame_drop_Ok (table : list Row) drop sub X :
  DataFrame_drop table drop sub = Ok X ↔
  (∀ n, n ∈ drop → n ∈ columns_of table) ∧ X = row_view drop <$> sub.
Proof.
  unfold DataFrame_drop.
  destruct (filter (λ n, n ∉ columns_of table) drop) as [|m ms] eqn:Hf.
  - split.
    + intros [= <-]. split; [|done]. intros n Hn.
      destruct (decide (n ∈ columns_of table)) as [|Hno]; [done|].
      assert (n ∈ filter (λ n, n ∉ columns_of table) drop) as Hin
        by (apply list_elem_of_filter; done).
      rewrite Hf in Hin. inversion Hin.
    + intros [_ ->]. done.
  - split; [done|]. intros [Hall _].
    assert (m ∈ filter (λ n, n ∉ columns_of table) drop) as Hin
      by (rewrite Hf; left).
    apply list_elem_of_filter in Hin as [Hno Hin]. destruct Hno. by apply Hall.
Qed.

(** ** The Fold Training Step, taken apart *)

(** What a call of [_train_fold] that returned has done, in the order of
    the source. *)
Lemma train_fold_Ok self df test_df fold params drop verbose (w : World) tp acc w' :
  _train_fold self df test_df fold params drop verbose w = (Ok (tp, acc), w') →
  ∃ rows clf0 fit_params clf val_pred val_proba val_proba1 rows' test test_proba,
    let train := filter (λ r, kfold r ≠ fold) rows in
    let val := filter (λ r, kfold r = fold) rows in
    heap w !! df = Some (TrainFrame rows) ∧
    init_classifier self params = Ok clf0 ∧
    extra_fit_parameters self (row_view drop <$> train) (Transported <$> train)
      (row_view drop <$> val) (Transported <$> val) params = Ok fit_params ∧
    fit clf0 (row_view drop <$> train) (Transported <$> train) fit_params = Ok clf ∧
    predict clf (row_view drop <$> val) = Ok val_pred ∧
    accuracy_score (Transported <$> val) val_pred = Ok acc ∧
    predict_proba clf (row_view drop <$> val) = Ok val_proba ∧
    column 1 val_proba = Ok val_proba1 ∧
    loc_set_preds rows (label <$> val) val_proba1 = Ok rows' ∧
    heap w' = <[df := TrainFrame rows']> (heap w) ∧
    heap w' !! test_df = Some test ∧
    predict_proba clf (as_X test) = Ok test_proba ∧
    column 1 test_proba = Ok tp ∧
    studies w' = studies w ∧ verbosity w' = verbosity w ∧
    stdout w' = stdout w ++ (if verbose then [fold_line fold acc] else []).
Proof.
  unfold _train_fold. intros Hb.
  apply bind_Ok in Hb as (rows & w1 & Hrows & Hb).
  apply train_rows_Ok in Hrows as [Hrows ->].
  apply bind_Ok in Hb as (Xt & w1 & HXt & Hb). apply lift_Ok in HXt as [HXt ->].
  apply DataFrame_drop_Ok in HXt as [_ ->].
  apply bind_Ok in Hb as (Xv & w1 & HXv & Hb). apply lift_Ok in HXv as [HXv ->].
  apply DataFrame_drop_Ok in HXv as [_ ->].
  apply bind_Ok in Hb as (clf0 & w1 & Hinit & Hb). apply lift_Ok in Hinit as [Hinit ->].
  apply bind_Ok in Hb as (kw & w1 & Hkw & Hb). apply lift_Ok in Hkw as [Hkw ->].
  apply bind_Ok in Hb as (clf & w1 & Hfit & Hb). apply lift_Ok in Hfit as [Hfit ->].
  apply bind_Ok in Hb as (vp & w1 & Hpred & Hb). apply lift_Ok in Hpred as [Hpred ->].
  apply bind_Ok in Hb as (a & w1 & Hacc & Hb). apply lift_Ok in Hacc as [Hacc ->].
  apply bind_Ok in Hb as (u & w1 & Hprint & Hb).
  apply print_verbose_Ok in Hprint as (Hh1 & Hs1 & Hv1 & Ho1).
  apply bind_Ok in Hb as (vpr & w2 & Hproba & Hb). apply lift_Ok in Hproba as [Hproba ->].
  apply bind_Ok in Hb as (vp1 & w2 & Hcol & Hb). apply lift_Ok in Hcol as [Hcol ->].
  apply bind_Ok in Hb as (u' & w2 & Hset & Hb).
  unfold setitem_loc_preds in Hset.
  apply bind_Ok in Hset as (rows1 & w3 & Hrows1 & Hset).
  apply train_rows_Ok in Hrows1 as [Hrows1 ->].
  apply bind_Ok in Hset as (rows' & w3 & Hloc & Hset). apply lift_Ok in Hloc as [Hloc ->].
  unfold store in Hset. injection Hset as _ <-.
  apply bind_Ok in Hb as (test & w3 & Htest & Hb). apply deref_Ok in Htest as [Htest ->].
  apply bind_Ok in Hb as (tpr & w3 & Htp & Hb). apply lift_Ok in Htp as [Htp ->].
  apply bind_Ok in Hb as (tp1 & w3 & Htc & Hb). apply lift_Ok in Htc as [Htc ->].
  apply ret_Ok in Hb as [[= -> ->] ->].
  rewrite Hh1, Hrows in Hrows1. injection Hrows1 as <-.
  exists rows, clf0, kw, clf, vp, vpr, vp1, rows', test, tpr. simpl in *.
  rewrite Hh1 in Htest |- *. repeat split; done.
Qed.

(** A call that returned was given only columns of the table to drop. *)
Lemma train_fold_drop_Ok self df test_df fold params drop verbose (w : World) r w' rows :
  heap w !! df = Some (TrainFrame rows) →
  _train_fold self df test_df fold params drop verbose w = (Ok r, w') →
  ∀ n, n ∈ drop → n ∈ columns_of rows.
Proof.
  unfold _train_fold. intros Hdf Hb.
  apply bind_Ok in Hb as (rows0 & w1 & Hrows & Hb).
  apply train_rows_Ok in Hrows as [Hrows ->].
  rewrite Hdf in Hrows. injection Hrows as <-.
  apply bind_Ok in Hb as (Xt & w1 & HXt & Hb). apply lift_Ok in HXt as [HXt ->].
  by apply DataFrame_drop_Ok in HXt as [? _].
Qed.

(** With one row of probabilities per sample, the values for the
    held-out rows are as many as these rows. *)
Lemma held_out_values_length drop clf (val : list Row) val_proba val_proba1 :
  proba_per_row →
  predict_proba clf (row_view drop <$> val) = Ok val_proba →
  column 1 val_proba = Ok val_proba1 →
  length val_proba1 = length val.
Proof.
  intros Hshape Hproba Hcol. unfold column in Hcol.
  rewrite (outcome_mapM_length _ _ _ Hcol), (Hshape _ _ _ Hproba).
  apply length_fmap.
Qed.

(** C4. The Fold Training Step for a fold selector [fold], with a classifier
    whose [predict_proba] gives one row per sample: it fits a classifier
    freshly made by [init_classifier] on exactly the rows whose fold index
    differs from [fold], returns as accuracy the [accuracy_score] of the
    classifier's predicted labels against the labels of exactly the rows
    whose fold index is [fold], writes the second column of [predict_proba]
    for these held-out rows into their cells of ["preds"] (and into no other
    row's), and returns the second column of [predict_proba] on the test
    table with that accuracy. *)
Theorem train_fold_spec self df test_df fold params drop verbose (w : World)
    rows tp acc w' :
  heap w !! df = Some (TrainFrame rows) →
  proba_per_row →
  _train_fold self df test_df fold params drop verbose w = (Ok (tp, acc), w') →
  fold_step_post self df test_df fold params drop w rows tp acc w'.
Proof.
  intros Hdf Hshape Hrun.
  pose proof (train_fold_drop_Ok _ _ _ _ _ _ _ _ _ _ _ Hdf Hrun) as Hdrop.
  apply train_fold_Ok in Hrun
    as (rows0 & clf0 & kw & clf & vp & vpr & vp1 & rows' & test & tpr & Hrun).
  simpl in Hrun.
  destruct Hrun as (Hdf' & Hinit & Hkw & Hfit & Hpred & Hacc & Hproba & Hcol
                    & Hloc & Hheap & Htest & Htp & Htc & _).
  rewrite Hdf in Hdf'. injection Hdf' as <-.
  pose proof (held_out_values_length _ _ _ _ _ Hshape Hproba Hcol) as Hlen.
  apply loc_set_preds_filter in Hloc as (_ & _ & ->); [|by right].
  exists clf0, kw, clf, vp, vpr, vp1,
    (scatter (λ r, kfold r = fold) (λ v, set_preds (Some (Num v)))
       with_preds_column rows vp1), test, tpr.
  repeat split; try done.
  - apply scatter_length.
  - intros i r Hi Hr.
    destruct (scatter_lookup_hit (λ r, kfold r = fold)
                (λ v, set_preds (Some (Num v))) with_preds_column rows vp1 i r)
      as (v & Hv & Hs); [done..|lia|].
    exists v. done.
  - intros i r Hi Hr. by apply scatter_lookup_other.
  - unfold column in Htc.
    by rewrite (outcome_mapM_length _ _ _ Htc), (Hshape _ _ _ Htp).
Qed.

(** ** The loop over the folds *)

Lemma train_loop_Ok self df test_df params drop verbose folds total_acc test_preds
    (w : World) a ps w' :
  train_loop self df test_df params drop verbose folds total_acc test_preds w
    = (Ok (a, ps), w') →
  ∃ steps,
    folds_run self df test_df params drop verbose folds w steps w' ∧
    a = foldl fadd total_acc (st_acc <$> steps) ∧
    ps = test_preds ++ (st_pred <$> steps).
Proof.
  revert total_acc test_preds w.
  induction folds as [|fold folds IH]; intros total_acc test_preds w; simpl.
  - intros Hr. apply ret_Ok in Hr as [[= -> ->] ->].
    exists []. split; [constructor|]. by rewrite app_nil_r.
  - intros Hb. apply bind_Ok in Hb as ([tp acc] & w1 & Hstep & Hrest).
    apply IH in Hrest as (steps & Hrun & -> & ->).
    eexists (_ :: steps). split; [by econstructor|]. simpl.
    by rewrite <- app_assoc.
Qed.

Lemma folds_run_folds self df test_df params drop verbose folds (w : World) steps w' :
  folds_run self df test_df params drop verbose folds w steps w' →
  st_fold <$> steps = folds.
Proof. induction 1; simpl; [done | by f_equal]. Qed.

Lemma folds_run_step self df test_df params drop verbose folds (w : World)
    steps w' s :
  folds_run self df test_df params drop verbose folds w steps w' →
  s ∈ steps →
  _train_fold self df test_df (st_fold s) params drop verbose (st_before s)
  = (Ok (st_pred s, st_acc s), st_after s).
Proof.
  induction 1 as [|fold folds w tp acc w1 steps w' Hstep _ IH]; intros Hs.
  - inversion Hs.
  - apply elem_of_cons in Hs as [->|Hs]; [done|by apply IH].
Qed.

Lemma alloc_Ok d (w : World) l w' :
  alloc d w = (Ok l, w') →
  (l ∉ dom (heap w)) ∧ heap w' = <[l := d]> (heap w) ∧
  studies w' = studies w ∧ verbosity w' = verbosity w ∧ stdout w' = stdout w.
Proof.
  unfold alloc. intros [= <- <-]. simpl. split; [|done]. apply is_fresh.
Qed.

(** What a call of [train] that returned has done, in the order of the
    source: the working copy [df'] and the table [test_df'] without
    ["PassengerId"] are new objects, the five Fold Training Steps ran on
    them, and the results are assembled from what they returned and left. *)
Lemma train_Ok self df test_df params verbose (w : World) oof tp acc w' :
  train self df test_df params verbose w = (Ok (oof, tp, acc), w') →
  ∃ rows df' test_df' w0 steps w1 m rows_end,
    heap w !! df = Some (TrainFrame rows) ∧
    train_setup df test_df w = (Ok (df', test_df'), w0) ∧
    heap w0 !! df' = Some (TrainFrame (set_preds (Some NA) <$> rows)) ∧
    folds_run self df' test_df' params train_drop verbose range5 w0 steps w1 ∧
    acc = fdiv (foldl fadd fzero (st_acc <$> steps)) (F_of_Z 5) ∧
    np_vstack (st_pred <$> steps) = Ok m ∧
    tp = np_mean_axis0 m ∧
    heap w1 !! df' = Some (TrainFrame rows_end) ∧
    outcome_mapM preds_cell rows_end = Ok oof.
Proof.
  unfold train. intros Hb.
  apply bind_Ok in Hb as (df' & w1 & Hcopy & Hb). pose proof Hcopy as Hcopy0.
  unfold DataFrame_copy in Hcopy.
  apply bind_Ok in Hcopy as (d & w1' & Hd & Hcopy). apply deref_Ok in Hd as [Hd ->].
  apply alloc_Ok in Hcopy as (Hfresh & Hh1 & _).
  apply bind_Ok in Hb as (test_df' & w2 & Hdrop & Hb). pose proof Hdrop as Hdrop0.
  unfold drop_PassengerId in Hdrop.
  apply bind_Ok in Hdrop as (t & w2' & Ht & Hdrop). apply deref_Ok in Ht as [Ht ->].
  destruct t as [|trows|]; try discriminate.
  apply alloc_Ok in Hdrop as (Hfresh2 & Hh2 & _).
  assert (test_df' ≠ df') as Hne.
  { intros ->. apply Hfresh2. rewrite Hh1. set_solver. }
  assert (heap w2 !! df' = Some d) as Hd2.
  { rewrite Hh2, lookup_insert_ne, Hh1, lookup_insert_eq; done. }
  apply bind_Ok in Hb as (u & w0 & Hna & Hb). pose proof Hna as Hna0.
  unfold setitem_preds_NA in Hna.
  apply bind_Ok in Hna as (d' & w0' & Hd' & Hna). apply deref_Ok in Hd' as [Hd' ->].
  rewrite Hd2 in Hd'. injection Hd' as <-.
  apply bind_Ok in Hb as ([total_acc test_preds] & w3 & Hloop & Hb).
  apply train_loop_Ok in Hloop as (steps & Hrun & -> & ->).
  apply bind_Ok in Hb as (u' & w4 & Hprint & Hb).
  apply print_verbose_Ok in Hprint as (Hh4 & _).
  apply bind_Ok in Hb as (m & w5 & Hm & Hb). apply lift_Ok in Hm as [Hm ->].
  apply bind_Ok in Hb as (oof' & w5 & Hget & Hb).
  unfold getitem_preds in Hget.
  apply bind_Ok in Hget as (rows_end & w6 & Hrows & Hget).
  apply train_rows_Ok in Hrows as [Hrows ->]. apply lift_Ok in Hget as [Hget ->].
  apply ret_Ok in Hb as [[= -> -> ->] ->].
  destruct d as [rows|trows'|xrows].
  - unfold store in Hna. injection Hna as Hw0. subst w0.
    exists rows, df', test_df',
      (set_heap (<[df':=TrainFrame (set_preds (Some NA) <$> rows)]> (heap w2)) w2),
      steps, w3, m, rows_end.
    simpl. rewrite lookup_insert_eq, <- Hh4. repeat split; try done.
    unfold train_setup, bind. rewrite Hcopy0, Hdrop0, Hna0. by destruct u.
  - apply ret_Ok in Hna as [_ ->]. inversion Hrun as [|? ? ? ? ? ? ? ? Hstep]; subst.
    apply train_fold_Ok in Hstep as (? & ? & ? & ? & ? & ? & ? & ? & ? & ? & Hstep).
    simpl in Hstep. destruct Hstep as [Hstep _]. congruence.
  - apply ret_Ok in Hna as [_ ->]. inversion Hrun as [|? ? ? ? ? ? ? ? Hstep]; subst.
    apply train_fold_Ok in Hstep as (? & ? & ? & ? & ? & ? & ? & ? & ? & ? & Hstep).
    simpl in Hstep. destruct Hstep as [Hstep _]. congruence.
Qed.

Lemma folds_run_range5 self df test_df params drop verbose (w : World) steps w' :
  folds_run self df test_df params drop verbose range5 w steps w' →
  ∃ s0 s1 s2 s3 s4, steps = [s0; s1; s2; s3; s4].
Proof.
  intros Hrun. apply folds_run_folds in Hrun.
  do 5 (destruct steps as [|? steps]; [discriminate|]).
  destruct steps; [eauto 6 | discriminate].
Qed.

(** C2. The accuracy [train] returns is the sum of the accuracies that its
    five Fold Training Steps returned, added up in the order of the folds
    from [0.0], divided by 5: their arithmetic mean. *)
Theorem train_accuracy_is_mean self df test_df params verbose (w : World)
    oof tp acc w' :
  train self df test_df params verbose w = (Ok (oof, tp, acc), w') →
  ∃ df' s0 s1 s2 s3 s4,
    train_steps self df test_df params verbose w df' [s0; s1; s2; s3; s4] ∧
    acc = fdiv (fadd (fadd (fadd (fadd (fadd fzero (st_acc s0)) (st_acc s1))
                                (st_acc s2)) (st_acc s3)) (st_acc s4))
               (F_of_Z 5).
Proof.
  intros Hrun.
  apply train_Ok in Hrun
    as (rows & df' & test_df' & w0 & steps & w1 & m & rows_end
        & _ & Hsetup & _ & Hfolds & -> & _).
  destruct (folds_run_range5 _ _ _ _ _ _ _ _ _ Hfolds)
    as (s0 & s1 & s2 & s3 & s4 & ->).
  exists df', s0, s1, s2, s3, s4. split; [|done].
  by exists test_df', w0, w1.
Qed.

(** ** numpy: stacking and averaging *)

Lemma np_vstack_Ok (arrays m : list (list float)) :
  np_vstack arrays = Ok m →
  m = arrays ∧ ∃ a rest, arrays = a :: rest ∧ Forall (λ b, length b = length a) rest.
Proof.
  unfold np_vstack. destruct arrays as [|a rest]; [done|].
  destruct (forallb _ rest) eqn:Hall; [|done]. intros [= <-].
  split; [done|]. exists a, rest. split; [done|].
  apply Forall_forall. intros b Hb%list_elem_of_In.
  rewrite forallb_forall in Hall. specialize (Hall _ Hb).
  by apply bool_decide_eq_true in Hall.
Qed.

(** C3. The test predictions [train] returns are the element-wise mean of
    the five vectors that its Fold Training Steps returned: the vectors
    have one length, the result has that length, and its entry at every
    position is the sum of the five entries at that position divided by 5. *)
Theorem train_test_preds_is_mean self df test_df params verbose (w : World)
    oof tp acc w' :
  train self df test_df params verbose w = (Ok (oof, tp, acc), w') →
  ∃ df' s0 s1 s2 s3 s4,
    train_steps self df test_df params verbose w df' [s0; s1; s2; s3; s4] ∧
    Forall (λ s, length (st_pred s) = length tp) [s0; s1; s2; s3; s4] ∧
    ∀ j x0 x1 x2 x3 x4,
      st_pred s0 !! j = Some x0 → st_pred s1 !! j = Some x1 →
      st_pred s2 !! j = Some x2 → st_pred s3 !! j = Some x3 →
      st_pred s4 !! j = Some x4 →
      tp !! j = Some (fdiv (fadd (fadd (fadd (fadd x0 x1) x2) x3) x4) (F_of_Z 5)).
Proof.
  intros Hrun.
  apply train_Ok in Hrun
    as (rows & df' & test_df' & w0 & steps & w1 & m & rows_end
        & _ & Hsetup & _ & Hfolds & _ & Hm & -> & _).
  destruct (folds_run_range5 _ _ _ _ _ _ _ _ _ Hfolds)
    as (s0 & s1 & s2 & s3 & s4 & ->).
  exists df', s0, s1, s2, s3, s4. split; [by exists test_df', w0, w1|].
  apply np_vstack_Ok in Hm as (-> & a & rest & [= <- <-] & Hlen).
  apply Forall_cons in Hlen as [Hl1 Hlen]. apply Forall_cons in Hlen as [Hl2 Hlen].
  apply Forall_cons in Hlen as [Hl3 Hlen]. apply Forall_cons in Hlen as [Hl4 _].
  assert (length (np_mean_axis0 (st_pred <$> [s0; s1; s2; s3; s4]))
          = length (st_pred s0)) as Hl.
  { simpl. rewrite length_fmap, !length_zip_with. lia. }
  split.
  - rewrite Hl. repeat constructor; done.
  - intros j x0 x1 x2 x3 x4 Hx0 Hx1 Hx2 Hx3 Hx4. simpl.
    rewrite list_lookup_fmap, !lookup_zip_with, Hx0, Hx1, Hx2, Hx3, Hx4. done.
Qed.

(** ** The invariant of the loop *)

Lemma positions_Forall2 {A B} (R : A → B → Prop) (P : A → Prop) (Q : B → Prop)
    `{!∀ x, Decision (P x), !∀ y, Decision (Q y)} l k :
  Forall2 R l k → (∀ x y, R x y → P x ↔ Q y) → positions P l = positions Q k.
Proof.
  intros HF HPQ. induction HF as [|x y l k HR _ IH]; simpl; [done|].
  rewrite IH. destruct (decide (P x)) as [Hp|Hp], (decide (Q y)) as [Hq|Hq];
    try done; exfalso; apply (HPQ _ _ HR) in Hp || apply (HPQ _ _ HR) in Hq; done.
Qed.

Lemma Forall2_scatter {A B V} (R R' : A → B → Prop) (P : B → Prop)
    `{!∀ y, Decision (P y)} (f : V → B → B) g l k vs :
  Forall2 R l k →
  (∀ x y v, R x y → P y → R' x (f v y)) →
  (∀ x y, R x y → ¬ P y → R' x (g y)) →
  (length (filter P k) ≤ length vs)%nat →
  Forall2 R' l (scatter P f g k vs).
Proof.
  intros HF Hf Hg. revert vs.
  induction HF as [|x y l k HR _ IH]; intros vs; simpl; [constructor|].
  rewrite filter_cons. destruct (decide (P y)); simpl.
  - destruct vs as [|v vs]; simpl; intros Hlen; [lia|].
    constructor; [eauto|]. apply IH. lia.
  - intros Hlen. constructor; eauto.
Qed.

Lemma cv_state_labels D rows rk :
  Forall2 (cv_state D) rows rk → label <$> rk = label <$> rows.
Proof.
  induction 1 as [|r r' rows rk (c & -> & _) _ IH]; [done|].
  rewrite !fmap_cons. by f_equal.
Qed.

Lemma cv_state_iff (D D' : Z → Prop) rows rk :
  (∀ f, D f ↔ D' f) → Forall2 (cv_state D) rows rk → Forall2 (cv_state D') rows rk.
Proof.
  intros HD HF. eapply Forall2_impl; [done|]. intros r r' (c & -> & Hin & Hout).
  exists c. split; [done|]. split; intros ?; [apply Hin | apply Hout]; by rewrite HD.
Qed.

Lemma cv_state_initial rows :
  Forall2 (cv_state (λ _, False)) rows (set_preds (Some NA) <$> rows).
Proof.
  induction rows as [|r rows IH]; simpl; constructor; [|done].
  exists NA. split; [done|]. split; [done|]. done.
Qed.

Lemma Forall2_fmap_filter {A B C} (R : A → B → Prop) (h : A → C) (h' : B → C)
    (P : A → Prop) (Q : B → Prop)
    `{!∀ x, Decision (P x), !∀ y, Decision (Q y)} l k :
  Forall2 R l k →
  (∀ x y, R x y → h x = h' y ∧ (P x ↔ Q y)) →
  h <$> filter P l = h' <$> filter Q k.
Proof.
  intros HF HR. induction HF as [|x y l k Hxy _ IH]; [done|].
  destruct (HR _ _ Hxy) as [Hh HPQ]. rewrite !filter_cons.
  destruct (decide (P x)) as [Hp|Hp], (decide (Q y)) as [Hq|Hq];
    try (exfalso; tauto); rewrite ?fmap_cons, ?Hh, IH; done.
Qed.

(** One step keeps the invariant, adding its fold to the folds that are
    done; its assignment goes to the positions of the rows of its fold, and
    it leaves the other rows as they are. *)
Lemma fold_step_inv self df test_df fold params drop verbose (w : World)
    tp acc w1 rows rk (D : Z → Prop) :
  NoDup (label <$> rows) ∨ proba_per_row →
  heap w !! df = Some (TrainFrame rk) →
  Forall2 (cv_state D) rows rk →
  _train_fold self df test_df fold params drop verbose w = (Ok (tp, acc), w1) →
  ∃ rk',
    heap w1 !! df = Some (TrainFrame rk') ∧
    Forall2 (cv_state (λ f, f = fold ∨ D f)) rows rk' ∧
    loc_targets df fold w = positions (λ r, kfold r = fold) rows ∧
    (∀ i r, rows !! i = Some r → kfold r ≠ fold → rk' !! i = rk !! i).
Proof.
  intros Hor Hdf Hinv Hrun.
  assert (label <$> rk = label <$> rows) as Hlab by (by eapply cv_state_labels).
  assert (positions (λ r, kfold r = fold) rk = positions (λ r, kfold r = fold) rows)
    as Hpos.
  { symmetry. eapply positions_Forall2; [done|].
    intros r r' (c & -> & _). done. }
  apply train_fold_Ok in Hrun
    as (rows0 & clf0 & kw & clf & vp & vpr & vp1 & rows' & test & tpr & Hrun).
  simpl in Hrun.
  destruct Hrun as (Hdf' & _ & _ & _ & _ & _ & Hproba & Hcol & Hloc & Hheap & _).
  rewrite Hdf in Hdf'. injection Hdf' as <-.
  apply loc_set_preds_filter in Hloc as (Hlen & Hown & ->).
  2:{ destruct Hor as [Hnd|Hshape].
      - left. intros r _ _. apply NoDup_occurs_once. by rewrite Hlab.
      - right. by eapply held_out_values_length. }
  eexists. split; [by rewrite Hheap, lookup_insert_eq|]. split; [|split].
  - eapply Forall2_scatter; [done| | |lia].
    + intros r r' v (c & -> & _) Hr. simpl in Hr.
      exists (Num v). split; [done|]. split; [eauto|]. intros Hn. exfalso. auto.
    + intros r r' (c & -> & Hin & Hout) Hr. simpl in Hr.
      exists c. split; [done|]. split.
      * intros [?|?]; [done|auto].
      * intros Hn. apply Hout. auto.
  - unfold loc_targets. rewrite Hdf, get_indexer_filter, Hown. done.
  - intros i r Hi Hr.
    destruct (Forall2_lookup_l _ _ _ _ _ Hinv Hi) as (r' & Hi' & (c & -> & _)).
    rewrite Hi'. erewrite scatter_lookup_other by done. done.
Qed.

(** The invariant along a run of the loop over distinct folds that are not
    yet done: a step's assignment goes to the rows of its fold; what it
    leaves in their cells stays to the end; it leaves the other cells as
    they are; and the cells of its rows, and of the rows of no fold, are
    [pd.NA] when it starts. *)
Lemma folds_run_inv self df test_df params drop verbose rows folds
    (w : World) steps w' :
  NoDup (label <$> rows) ∨ proba_per_row →
  folds_run self df test_df params drop verbose folds w steps w' →
  ∀ (D : Z → Prop) rk,
    NoDup folds →
    (∀ f, f ∈ folds → ¬ D f) →
    heap w !! df = Some (TrainFrame rk) →
    Forall2 (cv_state D) rows rk →
    ∃ rend,
      heap w' !! df = Some (TrainFrame rend) ∧
      Forall2 (cv_state (λ f, f ∈ folds ∨ D f)) rows rend ∧
      (∀ i r, rows !! i = Some r → kfold r ∉ folds → rend !! i = rk !! i) ∧
      ∀ s, s ∈ steps →
        loc_targets df (st_fold s) (st_before s)
          = positions (λ r, kfold r = st_fold s) rows ∧
        (∀ i r, rows !! i = Some r → kfold r = st_fold s →
           preds_at df i (st_after s) = preds_at df i w') ∧
        (∀ i r, rows !! i = Some r → kfold r ≠ st_fold s →
           preds_at df i (st_after s) = preds_at df i (st_before s)) ∧
        (∀ i r, rows !! i = Some r → ¬ D (kfold r) →
           kfold r = st_fold s ∨ kfold r ∉ folds →
           preds_at df i (st_before s) = Some NA).
Proof.
  intros Hor Hrun.
  induction Hrun as [w|fold folds w tp acc w1 steps w' Hstep Hrun IH];
    intros D rk Hfolds Hfresh Hdf Hinv.
  - exists rk. split; [done|]. split.
    { eapply cv_state_iff; [|done]. intros f. rewrite elem_of_nil. tauto. }
    split; [done|]. intros s Hs. inversion Hs.
  - apply NoDup_cons in Hfolds as [Hfold Hfolds].
    destruct (fold_step_inv _ _ _ _ _ _ _ _ _ _ _ _ _ D Hor Hdf Hinv Hstep)
      as (rk1 & Hdf1 & Hinv1 & Htargets & Hsame).
    destruct (IH (λ f, f = fold ∨ D f) rk1 Hfolds) as (rend & Hend & Hinvend & Hkeep & Hsteps);
      [|done..|].
    { intros f Hf [->|HD]; [done|]. apply (Hfresh f); [by right|done]. }
    exists rend. split; [done|]. split.
    { eapply cv_state_iff; [|done]. intros f. rewrite elem_of_cons. tauto. }
    split.
    { intros i r Hi Hr. apply not_elem_of_cons in Hr as [Hne Hr].
      rewrite (Hkeep i r), (Hsame i r); done. }
    intros s Hs. apply elem_of_cons in Hs as [->|Hs].
    + simpl. split; [done|]. split; [|split].
      * intros i r Hi Hr. unfold preds_at. rewrite Hdf1, Hend.
        rewrite (Hkeep i r); [done..|]. by rewrite Hr.
      * intros i r Hi Hr. unfold preds_at. rewrite Hdf1, Hdf.
        by rewrite (Hsame i r).
      * intros i r Hi HD _. unfold preds_at. rewrite Hdf.
        destruct (Forall2_lookup_l _ _ _ _ _ Hinv Hi) as (r' & -> & (c & -> & _ & Hna)).
        simpl. by rewrite (Hna HD).
    + destruct (Hsteps s Hs) as (Ht & Hk & Ho & Hna).
      split; [done|]. split; [done|]. split; [done|].
      intros i r Hi HD Hr.
      assert (st_fold s ∈ folds) as Hsf.
      { rewrite <- (folds_run_folds _ _ _ _ _ _ _ _ _ _ Hrun). by apply list_elem_of_fmap_2. }
      apply (Hna i r Hi).
      * intros [Heq|HD']; [|done]. destruct Hr as [Hr|Hr].
        -- apply Hfold. by rewrite <- Heq, Hr.
        -- apply Hr. rewrite Heq. by left.
      * destruct Hr as [Hr|Hr]; [by left|right].
        intros Hin. apply Hr. by right.
Qed.

(** ** The rows of the working copy *)

Lemma working_labels rows rk :
  Forall2 working_row rows rk → label <$> rk = label <$> rows.
Proof.
  induction 1 as [|r r' rows rk (c & ->) _ IH]; [done|].
  rewrite !fmap_cons. by f_equal.
Qed.

Lemma working_initial rows :
  Forall2 working_row rows (set_preds (Some NA) <$> rows).
Proof. apply Forall2_fmap_r, Forall_Forall2_diag, Forall_forall. intros r _. by exists NA. Qed.

(** A step leaves rows of the working copy, whatever its assignment
    resolves to. *)
Lemma fold_step_working self df test_df fold params drop verbose (w : World)
    tp acc w1 rows rk :
  heap w !! df = Some (TrainFrame rk) →
  Forall2 working_row rows rk →
  _train_fold self df test_df fold params drop verbose w = (Ok (tp, acc), w1) →
  ∃ rk', heap w1 !! df = Some (TrainFrame rk') ∧ Forall2 working_row rows rk'.
Proof.
  intros Hdf Hrk Hrun.
  apply train_fold_Ok in Hrun
    as (rows0 & clf0 & kw & clf & vp & vpr & vp1 & rows' & test & tpr & Hrun).
  simpl in Hrun.
  destruct Hrun as (Hdf' & _ & _ & _ & _ & _ & _ & _ & Hloc & Hheap & _).
  rewrite Hdf in Hdf'. injection Hdf' as <-.
  exists rows'. split; [by rewrite Hheap, lookup_insert_eq|].
  by eapply loc_set_preds_working.
Qed.

Lemma folds_run_working self df test_df params drop verbose rows folds
    (w : World) steps w' :
  folds_run self df test_df params drop verbose folds w steps w' →
  ∀ rk,
    heap w !! df = Some (TrainFrame rk) →
    Forall2 working_row rows rk →
    ∀ s, s ∈ steps →
      ∃ rb, heap (st_before s) !! df = Some (TrainFrame rb) ∧
            Forall2 working_row rows rb.
Proof.
  induction 1 as [w|fold folds w tp acc w1 steps w' Hstep Hrun IH];
    intros rk Hdf Hrk s Hs; [inversion Hs|].
  apply elem_of_cons in Hs as [->|Hs]; [by exists rk|].
  destruct (fold_step_working _ _ _ _ _ _ _ _ _ _ _ _ _ Hdf Hrk Hstep)
    as (rk1 & Hdf1 & Hrk1).
  by apply (IH rk1).
Qed.

(** With the column ["preds"] dropped, the features and labels that a step
    takes from the working copy are those of the caller's rows. *)
Lemma working_rows_split rows rk fold :
  (∀ c r, row_view train_drop (set_preds c r) = row_view train_drop r) →
  Forall2 working_row rows rk →
  row_view train_drop <$> filter (λ r, kfold r ≠ fold) rk
    = row_view train_drop <$> filter (λ r, kfold r ≠ fold) rows ∧
  Transported <$> filter (λ r, kfold r ≠ fold) rk
    = Transported <$> filter (λ r, kfold r ≠ fold) rows ∧
  row_view train_drop <$> filter (λ r, kfold r = fold) rk
    = row_view train_drop <$> filter (λ r, kfold r = fold) rows ∧
  Transported <$> filter (λ r, kfold r = fold) rk
    = Transported <$> filter (λ r, kfold r = fold) rows.
Proof.
  intros Hview Hrk.
  repeat split; symmetry; (eapply Forall2_fmap_filter; [exact Hrk|]);
    intros r r' (c & ->); by rewrite ?Hview.
Qed.

(** The working copy has the columns [train] drops. *)
Lemma train_drop_columns rows rk (sub : list Row) :
  Forall2 working_row rows rk →
  DataFrame_drop rk train_drop sub = Ok (row_view train_drop <$> sub).
Proof.
  intros Hrk. apply DataFrame_drop_Ok. split; [|done].
  assert (forallb has_preds_cell rk = true) as Hall.
  { apply forallb_forall. intros r' Hr'%list_elem_of_In.
    apply list_elem_of_lookup_1 in Hr' as [i Hi].
    destruct (Forall2_lookup_r _ _ _ _ _ Hrk Hi) as (r & _ & c & ->). done. }
  intros n. unfold columns_of, train_drop. rewrite Hall.
  rewrite !elem_of_app, !elem_of_cons, !elem_of_nil. tauto.
Qed.

(** ** Runs that return *)

Lemma elem_of_range5 f : f ∈ range5 ↔ 0 ≤ f < 5.
Proof. unfold range5. rewrite !elem_of_cons, elem_of_nil. lia. Qed.

Lemma NoDup_range5 : NoDup range5.
Proof. unfold range5. repeat constructor; rewrite ?elem_of_cons, ?elem_of_nil; lia. Qed.

Lemma bind_Ok_intro {W A B} (m : M W A) (k : A → M W B) w a w1 r :
  m w = (Ok a, w1) → k a w1 = r → bind m k w = r.
Proof. unfold bind. by intros -> <-. Qed.

Lemma bind_Raise_intro {W A B} (m : M W A) (k : A → M W B) w e w' :
  m w = (Raise e, w') → bind m k w = (Raise e, w').
Proof. unfold bind. by intros ->. Qed.

Lemma deref_intro l (w : World) d :
  heap w !! l = Some d → deref l w = (Ok d, w).
Proof. unfold deref. by intros ->. Qed.

Lemma train_rows_intro df (w : World) rows :
  heap w !! df = Some (TrainFrame rows) → train_rows df w = (Ok rows, w).
Proof.
  intros Hdf. unfold train_rows.
  eapply bind_Ok_intro; [by apply deref_intro|done].
Qed.

Lemma column_total j (a : list (list float)) :
  Forall (λ row, (j < length row)%nat) a →
  ∃ c, column j a = Ok c ∧ length c = length a.
Proof.
  unfold column. induction 1 as [|row a Hrow _ (c & Hc & Hlen)]; simpl.
  - by exists [].
  - destruct (lookup_lt_is_Some_2 row j Hrow) as [x Hx]. rewrite Hx, Hc.
    exists (x :: c). simpl. by rewrite Hlen.
Qed.

Lemma train_split self df test_df params verbose (w : World) :
  train self df test_df params verbose w
  = bind (train_setup df test_df)
      (λ p, train_body self p.1 p.2 params verbose) w.
Proof.
  unfold train, train_setup, train_body, bind.
  destruct (DataFrame_copy df w) as [[df'|e] w1]; [|done].
  destruct (drop_PassengerId test_df w1) as [[test_df'|e] w2]; [|done].
  destruct (setitem_preds_NA df' w2) as [[[]|e] w0]; done.
Qed.

(** The setup on a training table and a test table: two new objects, the
    copy with a column of [pd.NA] and the features of the test table;
    nothing else in the world changes. *)
Lemma train_setup_runs df test_df (w : World) rows trows :
  heap w !! df = Some (TrainFrame rows) →
  heap w !! test_df = Some (TestFrame trows) →
  ∃ df' test_df' w0,
    train_setup df test_df w = (Ok (df', test_df'), w0) ∧
    heap w0 !! df' = Some (TrainFrame (set_preds (Some NA) <$> rows)) ∧
    heap w0 !! test_df'
      = Some (XFrame (test_view ["PassengerId"] <$> trows)) ∧
    df' ≠ test_df' ∧
    stdout w0 = stdout w ∧ verbosity w0 = verbosity w ∧ studies w0 = studies w.
Proof.
  intros Hdf Htest.
  set (df' := fresh (dom (heap w))).
  assert (df' ∉ dom (heap w)) as Hfresh by apply is_fresh.
  set (w1 := set_heap (<[df' := TrainFrame rows]> (heap w)) w).
  assert (test_df ≠ df') as Hne1.
  { intros ->. apply Hfresh. apply elem_of_dom. eauto. }
  set (test_df' := fresh (dom (heap w1))).
  assert (test_df' ∉ dom (heap w1)) as Hfresh2 by apply is_fresh.
  set (xs := test_view ["PassengerId"] <$> trows).
  set (w2 := set_heap (<[test_df' := XFrame xs]> (heap w1)) w1).
  assert (df' ≠ test_df') as Hne2.
  { intros Heq. apply Hfresh2. rewrite <- Heq. simpl. rewrite dom_insert_L.
    set_solver. }
  set (w0 := set_heap (<[df' := TrainFrame (set_preds (Some NA) <$> rows)]> (heap w2)) w2).
  exists df', test_df', w0. split; [|split; [|split]].
  - unfold train_setup.
    eapply bind_Ok_intro.
    { unfold DataFrame_copy. eapply bind_Ok_intro; [by apply deref_intro|done]. }
    eapply bind_Ok_intro.
    { unfold drop_PassengerId. eapply bind_Ok_intro.
      - apply deref_intro. simpl. by rewrite lookup_insert_ne.
      - reflexivity. }
    eapply bind_Ok_intro; [|reflexivity].
    unfold setitem_preds_NA. eapply bind_Ok_intro.
    + apply deref_intro. simpl. by rewrite lookup_insert_ne, lookup_insert_eq.
    + reflexivity.
  - simpl. apply lookup_insert_eq.
  - simpl. by rewrite lookup_insert_ne, lookup_insert_eq.
  - done.
Qed.

(** A Fold Training Step of [train] returns when the collaborators answer
    on the caller's rows and the labels of the held-out rows are not
    repeated; it leaves rows of the working copy at [df] and the test
    table where it was. *)
Lemma train_fold_returns self df test_df fold params verbose (w : World)
    rows rk xs :
  (∀ c r, row_view train_drop (set_preds c r) = row_view train_drop r) →
  proba_per_row →
  heap w !! df = Some (TrainFrame rk) →
  Forall2 working_row rows rk →
  (∀ r, r ∈ rows → kfold r = fold → occurs_once (label r) (label <$> rows)) →
  heap w !! test_df = Some (XFrame xs) →
  df ≠ test_df →
  fold_answers self params rows xs fold →
  ∃ tp acc w' rk',
    _train_fold self df test_df fold params train_drop verbose w = (Ok (tp, acc), w') ∧
    length tp = length xs ∧
    heap w' !! df = Some (TrainFrame rk') ∧
    Forall2 working_row rows rk' ∧
    heap w' !! test_df = Some (XFrame xs).
Proof.
  intros Hview Hshape Hdf Hrk Honce Htest Hne
    (clf0 & kw & clf & y_pred & acc & vp & tpr
     & Hinit & Hkw & Hclf & Hpred & Haccv & Hvp & Hvp2 & Htpr & Htpr2).
  destruct (working_rows_split rows rk fold Hview Hrk) as (HX1 & Hy1 & HX2 & Hy2).
  rewrite <- HX1, <- Hy1, <- HX2, <- Hy2 in *.
  set (train := filter (λ r, kfold r ≠ fold) rk) in *.
  set (val := filter (λ r, kfold r = fold) rk) in *.
  destruct (column_total 1 vp) as (vp1 & Hvp1 & Hvp1len).
  { eapply Forall_impl; [done|]. simpl. lia. }
  destruct (column_total 1 tpr) as (tp & Htp & Htplen).
  { eapply Forall_impl; [done|]. simpl. lia. }
  set (rk' := scatter (λ r, kfold r = fold) (λ v, set_preds (Some (Num v)))
                with_preds_column rk vp1).
  assert (loc_set_preds rk (label <$> val) vp1 = Ok rk') as Hloc.
  { apply loc_set_preds_filter_Ok.
    - intros r' Hr' Hk'. rewrite (working_labels rows rk Hrk).
      apply list_elem_of_lookup_1 in Hr' as [i Hi].
      destruct (Forall2_lookup_r _ _ _ _ _ Hrk Hi) as (r & Hr & c & ->).
      apply (Honce r); [by eapply list_elem_of_lookup_2|done].
    - by eapply held_out_values_length. }
  assert (∃ w1, (if verbose then print (fold_line fold acc) else ret tt) w
                = (Ok tt, w1) ∧ heap w1 = heap w) as (w1 & Hprint & Hh1).
  { destruct verbose; eexists; (split; [reflexivity|done]). }
  exists tp, acc, (set_heap (<[df := TrainFrame rk']> (heap w1)) w1), rk'.
  split; [|split; [|split; [|split]]].
  - unfold _train_fold.
    eapply bind_Ok_intro; [by apply train_rows_intro|].
    fold train val.
    eapply bind_Ok_intro; [unfold lift; by rewrite (train_drop_columns rows rk)|].
    eapply bind_Ok_intro; [unfold lift; by rewrite (train_drop_columns rows rk)|].
    eapply bind_Ok_intro; [unfold lift; by rewrite Hinit|].
    eapply bind_Ok_intro; [unfold lift; by rewrite Hkw|].
    eapply bind_Ok_intro; [unfold lift; by rewrite Hclf|].
    eapply bind_Ok_intro; [unfold lift; by rewrite Hpred|].
    eapply bind_Ok_intro; [unfold lift; by rewrite Haccv|].
    eapply bind_Ok_intro; [exact Hprint|].
    eapply bind_Ok_intro; [unfold lift; by rewrite Hvp|].
    eapply bind_Ok_intro; [unfold lift; by rewrite Hvp1|].
    eapply bind_Ok_intro.
    { unfold setitem_loc_preds.
      eapply bind_Ok_intro; [apply train_rows_intro; by rewrite Hh1|].
      eapply bind_Ok_intro; [unfold lift; by rewrite Hloc|]. reflexivity. }
    eapply bind_Ok_intro.
    { apply deref_intro. simpl. by rewrite lookup_insert_ne, Hh1. }
    eapply bind_Ok_intro; [unfold lift; simpl; by rewrite Htpr|].
    eapply bind_Ok_intro; [unfold lift; by rewrite Htp|].
    reflexivity.
  - rewrite Htplen. by apply Hshape in Htpr.
  - simpl. apply lookup_insert_eq.
  - by eapply loc_set_preds_working.
  - simpl. by rewrite lookup_insert_ne, Hh1.
Qed.

Lemma train_loop_returns self df test_df params verbose folds total_acc
    test_preds (w : World) rows rk xs :
  (∀ c r, row_view train_drop (set_preds c r) = row_view train_drop r) →
  proba_per_row →
  heap w !! df = Some (TrainFrame rk) →
  Forall2 working_row rows rk →
  (∀ f r, f ∈ folds → r ∈ rows → kfold r = f →
     occurs_once (label r) (label <$> rows)) →
  heap w !! test_df = Some (XFrame xs) →
  df ≠ test_df →
  (∀ f, f ∈ folds → fold_answers self params rows xs f) →
  Forall (λ p, length p = length xs) test_preds →
  ∃ a ps w' rend,
    train_loop self df test_df params train_drop verbose folds total_acc test_preds w
      = (Ok (a, ps), w') ∧
    Forall (λ p, length p = length xs) ps ∧
    (length ps = length test_preds + length folds)%nat ∧
    heap w' !! df = Some (TrainFrame rend) ∧
    Forall2 working_row rows rend.
Proof.
  intros Hview Hshape. revert total_acc test_preds w rk.
  induction folds as [|fold folds IH]; intros total_acc test_preds w rk
    Hdf Hrk Honce Htest Hne Hans Hps; simpl.
  - exists total_acc, test_preds, w, rk. repeat split; [done|lia|done..].
  - destruct (train_fold_returns self df test_df fold params verbose w rows rk xs)
      as (tp & acc & w1 & rk' & Hstep & Hlen & Hdf1 & Hrk1 & Htest1); try done.
    { intros r Hr Hk. apply (Honce fold); [by left|done..]. }
    { apply Hans. by left. }
    destruct (IH (fadd total_acc acc) (test_preds ++ [tp]) w1 rk')
      as (a & ps & w' & rend & Hloop & Hall & Hlenps & Hend & Hrend); try done.
    { intros f r Hf. apply Honce. by right. }
    { intros f Hf. apply Hans. by right. }
    { apply Forall_app. split; [done|]. by constructor. }
    exists a, ps, w', rend. split.
    + eapply bind_Ok_intro; [exact Hstep|]. exact Hloop.
    + split; [done|]. split; [|done]. rewrite Hlenps, length_app. simpl. lia.
Qed.

Lemma np_vstack_same_length (arrays : list (list float)) n :
  arrays ≠ [] → Forall (λ p, length p = n) arrays → np_vstack arrays = Ok arrays.
Proof.
  destruct arrays as [|a rest]; [done|]. intros _ Hall. unfold np_vstack.
  apply Forall_cons in Hall as [Ha Hrest].
  replace (forallb _ rest) with true; [done|].
  symmetry. apply forallb_forall. intros b Hb%list_elem_of_In.
  apply bool_decide_eq_true. rewrite Forall_forall in Hrest.
  rewrite (Hrest b Hb). done.
Qed.

Lemma working_preds_total rows rend :
  Forall2 working_row rows rend → ∃ oof, outcome_mapM preds_cell rend = Ok oof.
Proof.
  induction 1 as [|r r' rows rend (c & ->) _ (oof & Hoof)]; simpl.
  - by exists [].
  - rewrite Hoof. by exists (c :: oof).
Qed.

(** [train] returns on a training table and a test table as soon as the
    collaborators answer in each of the five folds and no row that a fold
    holds out shares its label with another row, whatever the fold indices
    are. *)
Lemma train_returns self df test_df params verbose (w : World) rows trows :
  (∀ c r, row_view train_drop (set_preds c r) = row_view train_drop r) →
  proba_per_row →
  held_out_labels_unique rows →
  (∀ f, f ∈ range5 →
     fold_answers self params rows (test_view ["PassengerId"] <$> trows) f) →
  heap w !! df = Some (TrainFrame rows) →
  heap w !! test_df = Some (TestFrame trows) →
  ∃ oof tp acc w', train self df test_df params verbose w = (Ok (oof, tp, acc), w').
Proof.
  intros Hview Hshape Honce Hans Hdf Htest.
  destruct (train_setup_runs df test_df w rows trows Hdf Htest)
    as (df' & test_df' & w0 & Hsetup & Hdf0 & Htest0 & Hne & _).
  destruct (train_loop_returns self df' test_df' params verbose range5
              fzero [] w0 rows _ (test_view ["PassengerId"] <$> trows)
              Hview Hshape Hdf0 (working_initial rows))
    as (total_acc & ps & w3 & rend & Hloop & Hall & Hlen & Hend & Hrend); try done.
  { intros f r Hf Hr Hk. apply Honce; [done|]. rewrite Hk. by apply elem_of_range5. }
  destruct (working_preds_total _ _ Hrend) as [oof Hoof].
  set (acc := fdiv total_acc (F_of_Z 5)).
  assert (∃ w4, (if verbose then print (overall_line acc) else ret tt) w3
                = (Ok tt, w4) ∧ heap w4 = heap w3) as (w4 & Hprint & Hh4).
  { destruct verbose; eexists; (split; [reflexivity|done]). }
  exists oof, (np_mean_axis0 ps), acc, w4.
  rewrite train_split. eapply bind_Ok_intro; [exact Hsetup|]. simpl.
  unfold train_body.
  eapply bind_Ok_intro; [exact Hloop|]. simpl.
  eapply bind_Ok_intro; [exact Hprint|].
  eapply bind_Ok_intro.
  { unfold lift. erewrite np_vstack_same_length; [reflexivity| |exact Hall].
    intros ->. simpl in Hlen. lia. }
  eapply bind_Ok_intro; [|reflexivity].
  unfold getitem_preds. eapply bind_Ok_intro.
  - apply train_rows_intro. by rewrite Hh4.
  - unfold lift. by rewrite Hoof.
Qed.

(** ** The out-of-fold vector *)

Lemma oof_lookup rend oof i c (r : Row) :
  outcome_mapM preds_cell rend = Ok oof →
  rend !! i = Some (set_preds (Some c) r) →
  oof !! i = Some c.
Proof.
  intros Hm%outcome_mapM_Ok Hi.
  destruct (Forall2_lookup_l _ _ _ _ _ Hm Hi) as (b & Hb & Hcell).
  unfold preds_cell in Hcell. simpl in Hcell. congruence.
Qed.

(** The steps of a run of [train] start on rows of the working copy. *)
Lemma train_run_working self df test_df params verbose (w : World) rows oof tp acc w' :
  heap w !! df = Some (TrainFrame rows) →
  train self df test_df params verbose w = (Ok (oof, tp, acc), w') →
  ∃ df' test_df' w0 steps w1,
    train_setup df test_df w = (Ok (df', test_df'), w0) ∧
    folds_run self df' test_df' params train_drop verbose range5 w0 steps w1 ∧
    ∀ s, s ∈ steps →
      ∃ rb, heap (st_before s) !! df' = Some (TrainFrame rb) ∧
            Forall2 working_row rows rb.
Proof.
  intros Hdf Hrun.
  apply train_Ok in Hrun
    as (rows0 & df' & test_df' & w0 & steps & w1 & m & rend
        & Hdf0 & Hsetup & Hw0 & Hfolds & _).
  rewrite Hdf in Hdf0. injection Hdf0 as <-.
  exists df', test_df', w0, steps, w1. split; [done|]. split; [done|].
  eapply folds_run_working; [exact Hfolds|exact Hw0|apply working_initial].
Qed.

(** A run of [train] with the loop invariant at its end, on a table with
    a unique index or with a classifier that gives one row of
    probabilities per sample. *)
Lemma train_run_inv self df test_df params verbose (w : World) rows oof tp acc w' :
  heap w !! df = Some (TrainFrame rows) →
  NoDup (label <$> rows) ∨ proba_per_row →
  train self df test_df params verbose w = (Ok (oof, tp, acc), w') →
  ∃ df' steps w1 rend,
    train_steps self df test_df params verbose w df' steps ∧
    st_fold <$> steps = range5 ∧
    heap w1 !! df' = Some (TrainFrame rend) ∧
    outcome_mapM preds_cell rend = Ok oof ∧
    Forall2 (cv_state (λ f, 0 ≤ f < 5)) rows rend ∧
    ∀ s, s ∈ steps →
      loc_targets df' (st_fold s) (st_before s)
        = positions (λ r, kfold r = st_fold s) rows ∧
      (∀ i r, rows !! i = Some r → kfold r = st_fold s →
         preds_at df' i (st_after s) = preds_at df' i w1) ∧
      (∀ i r, rows !! i = Some r → kfold r ≠ st_fold s →
         preds_at df' i (st_after s) = preds_at df' i (st_before s)) ∧
      (∀ i r, rows !! i = Some r → kfold r = st_fold s ∨ ¬ (0 ≤ kfold r < 5) →
         preds_at df' i (st_before s) = Some NA) ∧
      ∃ rb, heap (st_before s) !! df' = Some (TrainFrame rb) ∧
            Forall2 working_row rows rb.
Proof.
  intros Hdf Hor Hrun.
  apply train_Ok in Hrun
    as (rows0 & df' & test_df' & w0 & steps & w1 & m & rend
        & Hdf0 & Hsetup & Hw0 & Hfolds & _ & _ & _ & Hend & Hoof).
  rewrite Hdf in Hdf0. injection Hdf0 as <-.
  destruct (folds_run_inv _ _ _ _ _ _ rows _ _ _ _ Hor Hfolds (λ _, False) _
              NoDup_range5 (λ _ _ H, H) Hw0 (cv_state_initial rows))
    as (rend' & Hend' & Hinv & _ & Hsteps).
  rewrite Hend in Hend'. injection Hend' as <-.
  exists df', steps, w1, rend. split; [by exists test_df', w0, w1|].
  split; [by eapply folds_run_folds|]. split; [done|]. split; [done|].
  split.
  { eapply cv_state_iff; [|done]. intros f. simpl. rewrite elem_of_range5. tauto. }
  intros s Hs. destruct (Hsteps s Hs) as (Ht & Hk & Ho & Hna).
  split; [done|]. split; [done|]. split; [done|]. split.
  - intros i r Hi Hr. apply (Hna i r Hi); [tauto|].
    destruct Hr as [Hr|Hr]; [by left|right]. by rewrite elem_of_range5.
  - eapply folds_run_working; [exact Hfolds|exact Hw0|apply working_initial|done].
Qed.

(** C1. On a training table whose fold-index column gives every row an
    integer in [0,5), with a classifier whose [predict_proba] gives one
    row per sample, the out-of-fold vector that [train] returns has exactly
    one written value per row. The Fold Training Step for fold [f] assigns
    to a row exactly if [f] is the row's fold index; that step finds the
    row's cell unwritten and leaves in it the number that is the row's
    entry of the result; every other step leaves the cell as it is. So no
    row is left unwritten and none is written by two folds. *)
Theorem train_oof_written_once self df test_df params verbose (w : World)
    rows oof tp acc w' :
  heap w !! df = Some (TrainFrame rows) →
  (∀ r, r ∈ rows → 0 ≤ kfold r < 5) →
  proba_per_row →
  train self df test_df params verbose w = (Ok (oof, tp, acc), w') →
  oof_written_once self df test_df params verbose w rows oof.
Proof.
  intros Hdf Hrange Hshape Hrun.
  destruct (train_run_inv _ _ _ _ _ _ _ _ _ _ _ Hdf (or_intror Hshape) Hrun)
    as (df' & steps & w1 & rend & Hsteps & Hfolds & Hend & Hoof & Hinv & Hstep).
  exists df', steps. split; [done|]. split; [done|]. split.
  { rewrite (outcome_mapM_length _ _ _ Hoof). symmetry. by eapply Forall2_length. }
  intros i r Hi.
  destruct (Forall2_lookup_l _ _ _ _ _ Hinv Hi) as (r' & Hi' & (c & -> & Hin & _)).
  destruct Hin as [v ->]; [apply Hrange; by eapply list_elem_of_lookup_2|].
  pose proof (oof_lookup _ _ _ _ _ Hoof Hi') as Hoofi.
  split; [by exists v|]. intros s Hs.
  destruct (Hstep s Hs) as (Htargets & Hkeep & Hother & Hna & _).
  rewrite Htargets. split; [|split; [|split]].
  - rewrite elem_of_positions. split.
    + intros (x & Hx & <-). congruence.
    + intros ->. by exists r.
  - apply NoDup_positions.
  - intros Hs'. split; [apply (Hna i r Hi); by left|].
    rewrite (Hkeep i r) by done.
    unfold preds_at. rewrite Hend, Hi', Hoofi. done.
  - intros Hs'. apply (Hother i r Hi). congruence.
Qed.


(** ** What [train] leaves alone *)

Lemma touches_only_bind {A B} L (m : M World A) (k : A → M World B) :
  touches_only L m → (∀ a, touches_only L (k a)) → touches_only L (bind m k).
Proof.
  intros Hm Hk w r w'. unfold bind.
  destruct (m w) as [[a|e] w1] eqn:Hmw.
  - intros Hka l Hl. rewrite (Hk a _ _ _ Hka l Hl). by eapply Hm.
  - intros [= <- <-]. by eapply Hm.
Qed.

Lemma touches_only_ret {A} L (a : A) : touches_only L (ret a).
Proof. intros w r w' [= <- <-]. done. Qed.

Lemma touches_only_raise {A} L e : touches_only L (raise (A:=A) e).
Proof. intros w r w' [= <- <-]. done. Qed.

Lemma touches_only_lift {A} L (o : outcome A) : touches_only L (lift o).
Proof. intros w r w' [= <- <-]. done. Qed.

Lemma touches_only_print L (verbose : bool) line :
  touches_only L (if verbose then print line else ret tt).
Proof. destruct verbose; intros w r w' [= <- <-]; done. Qed.

Lemma touches_only_deref L l : touches_only L (deref l).
Proof.
  intros w r w'. unfold deref. destruct (heap w !! l); intros [= <- <-]; done.
Qed.

Lemma touches_only_store (L : loc → Prop) l d : L l → touches_only L (store l d).
Proof.
  intros Hl w r w' [= <- <-] l' Hl'. simpl.
  apply lookup_insert_ne. intros ->. done.
Qed.

Lemma touches_only_train_rows L df : touches_only L (train_rows df).
Proof.
  apply touches_only_bind; [apply touches_only_deref|].
  intros [| |]; auto using touches_only_ret, touches_only_raise.
Qed.

Lemma touches_only_train_fold self df test_df fold params drop verbose :
  touches_only (λ l, l = df) (_train_fold self df test_df fold params drop verbose).
Proof.
  unfold _train_fold, setitem_loc_preds.
  repeat first
    [ apply touches_only_train_rows
    | apply touches_only_bind; [|intros ?]
    | apply touches_only_lift
    | apply touches_only_print
    | apply touches_only_deref
    | apply touches_only_ret
    | by apply touches_only_store ].
Qed.

Lemma touches_only_train_loop self df test_df params drop verbose folds a ps :
  touches_only (λ l, l = df)
    (train_loop self df test_df params drop verbose folds a ps).
Proof.
  revert a ps. induction folds as [|fold folds IH]; intros a ps; simpl.
  - apply touches_only_ret.
  - apply touches_only_bind; [apply touches_only_train_fold|].
    intros [tp acc]. apply IH.
Qed.

Lemma bind_inv {W A B} (m : M W A) (k : A → M W B) w r w' :
  bind m k w = (r, w') →
  (∃ e, m w = (Raise e, w') ∧ r = Raise e) ∨
  (∃ a w1, m w = (Ok a, w1) ∧ k a w1 = (r, w')).
Proof.
  unfold bind. destruct (m w) as [[a|e] w1]; [eauto|].
  intros [= <- <-]. eauto.
Qed.

(** Every object of the heap [train] starts in is the same when [train]
    ends, with a result or with an exception. *)
Lemma train_heap_frame self df test_df params verbose (w : World) r w' l :
  train self df test_df params verbose w = (r, w') →
  l ∈ dom (heap w) → heap w' !! l = heap w !! l.
Proof.
  unfold train. intros Hb Hl.
  apply bind_inv in Hb as [(e & Hcopy & _)|(df' & w1 & Hcopy & Hb)].
  { unfold DataFrame_copy in Hcopy.
    apply bind_inv in Hcopy as [(e' & Hd & _)|(d & w1 & Hd & Hal)]; [|discriminate].
    unfold deref in Hd. destruct (heap w !! df); by injection Hd as _ <-. }
  unfold DataFrame_copy in Hcopy.
  apply bind_Ok in Hcopy as (d & w0 & Hd & Hal). apply deref_Ok in Hd as [Hd ->].
  apply alloc_Ok in Hal as (Hfresh & Hh1 & _).
  assert (l ≠ df') as Hne by (by intros ->).
  assert (heap w1 !! l = heap w !! l) as Hl1 by (by rewrite Hh1, lookup_insert_ne).
  apply bind_inv in Hb as [(e & Hdrop & _)|(test_df' & w2 & Hdrop & Hb)].
  { unfold drop_PassengerId in Hdrop.
    apply bind_inv in Hdrop as [(e' & Ht & _)|(t & w2 & Ht & Hal)].
    - unfold deref in Ht. destruct (heap w1 !! test_df); by injection Ht as _ <-.
    - apply deref_Ok in Ht as [_ ->]. destruct t; try discriminate;
        by injection Hal as _ <-. }
  unfold drop_PassengerId in Hdrop.
  apply bind_Ok in Hdrop as (t & w0 & Ht & Hal). apply deref_Ok in Ht as [Ht ->].
  destruct t as [|trows|]; try discriminate.
  apply alloc_Ok in Hal as (Hfresh2 & Hh2 & _).
  assert (l ≠ test_df') as Hne2.
  { intros ->. apply Hfresh2. rewrite Hh1, dom_insert_L. set_solver. }
  rewrite <- Hl1. transitivity (heap w2 !! l); [|by rewrite Hh2, lookup_insert_ne].
  eapply (touches_only_bind (λ l, l = df')); [| |exact Hb|exact Hne].
  - unfold setitem_preds_NA. apply touches_only_bind; [apply touches_only_deref|].
    intros [| |]; auto using touches_only_ret. by apply touches_only_store.
  - intros ?. apply touches_only_bind; [apply touches_only_train_loop|].
    intros [total_acc test_preds].
    apply touches_only_bind; [apply touches_only_print|]. intros ?.
    apply touches_only_bind; [apply touches_only_lift|]. intros m.
    apply touches_only_bind; [|intros ?; apply touches_only_ret].
    unfold getitem_preds.
    apply touches_only_bind; [apply touches_only_train_rows|].
    intros ?. apply touches_only_lift.
Qed.

(** C8. The tables the caller passes to [train] are the same objects with
    the same contents when [train] ends, whether it returns or raises: the
    column ["preds"] is added to and filled in a new copy, and
    ["PassengerId"] is dropped into a new table. *)
Theorem train_leaves_callers_tables self df test_df params verbose (w : World)
    d t r w' :
  heap w !! df = Some d →
  heap w !! test_df = Some t →
  train self df test_df params verbose w = (r, w') →
  heap w' !! df = Some d ∧ heap w' !! test_df = Some t.
Proof.
  intros Hd Ht Hrun. rewrite <- Hd, <- Ht.
  split; eapply train_heap_frame; try done; apply elem_of_dom; eauto.
Qed.

(** ** The search *)

(** C5. [hyperparameter_search] on a [BaseModel], asked for at least one
    trial, raises [NotImplementedError]: the first call of the objective
    raises it and [optimize] lets it through. No trial has completed by
    then: the study made for the search holds the one trial that was
    started, as failed; tables and console are untouched. *)
Theorem hyperparameter_search_base_raises train_df test_df n_trials (w : World) :
  0 < n_trials →
  ∃ study w',
    hyperparameter_search (BaseModel train_df test_df) n_trials w
      = (Raise (NotImplementedError "Base classes need to implement objective()."), w') ∧
    (study ∉ dom (studies w)) ∧
    studies w' !! study
      = Some {| sampler_seed := 42;
                trials := [ {| ft_trial := ask 42 []; ft_state := FAIL |} ] |} ∧
    heap w' = heap w ∧ stdout w' = stdout w.
Proof.
  intros Hn. exists (fresh (dom (studies w))).
  unfold hyperparameter_search, optimize.
  destruct (Z.to_nat n_trials) as [|n] eqn:Hnat; [lia|].
  eexists. split.
  - unfold bind, BaseModel, ret, create_study, get_verbosity, set_verbosity. simpl.
    unfold bind, get_study, raise, tell. simpl. rewrite lookup_insert_eq. simpl.
    unfold bind, get_study. simpl. rewrite lookup_insert_eq. simpl. reflexivity.
  - simpl. rewrite insert_insert_eq, lookup_insert_eq.
    split; [apply is_fresh|]. done.
Qed.

Lemma tell_verbosity study t st (w : World) r w' :
  tell study t st w = (r, w') → verbosity w' = verbosity w.
Proof.
  unfold tell, bind, get_study. destruct (studies w !! study); by intros [= <- <-].
Qed.

Lemma optimize_loop_verbosity study (func : Trial → M World (Trial * float)) n
    (w : World) r w' :
  (∀ trial w r w', func trial w = (r, w') → verbosity w' = verbosity w) →
  optimize_loop study func n w = (r, w') → verbosity w' = verbosity w.
Proof.
  intros Hfunc. revert w r w'. induction n as [|n IH]; intros w r w'; simpl.
  - by intros [= <- <-].
  - unfold bind at 1. unfold get_study at 1.
    destruct (studies w !! study) as [s|]; [|by intros [= <- <-]].
    destruct (func _ w) as [[[t v]|e] w1] eqn:Hf; apply Hfunc in Hf.
    + unfold bind. destruct (tell _ _ _ w1) as [[u|e] w2] eqn:Ht;
        apply tell_verbosity in Ht.
      * intros Hl%IH. congruence.
      * intros [= <- <-]. congruence.
    + assert (∀ st (k : M World unit),
                (∀ w r w', k w = (r, w') → verbosity w' = verbosity w) →
                bind (tell study (ask (sampler_seed s) (trials s)) st) (λ _, k) w1
                  = (r, w') → verbosity w' = verbosity w) as Hk.
      { intros st k Hkv. unfold bind.
        destruct (tell _ _ _ w1) as [[u|e'] w2] eqn:Ht; apply tell_verbosity in Ht.
        - intros Hl%Hkv. congruence.
        - intros [= <- <-]. congruence. }
      destruct e; apply Hk; try (intros ? ? ? [= <- <-]; done).
      intros ? ? ?. apply IH.
Qed.

(** C6. The search runs with optuna's verbosity at [WARNING]. If
    [optimize] returns, after however many trials, the verbosity is set
    back to what it was before, whatever [best_params] then does. If an
    exception leaves [optimize], [hyperparameter_search] ends there with
    that exception and the world as it is: nothing sets the verbosity
    back, and with an objective that does not touch it, it stays at
    [WARNING]. *)
Theorem hyperparameter_search_verbosity self n_trials (w : World) train_df test_df
    w1 r w' :
  preprocess_datasets self w = (Ok (train_df, test_df), w1) →
  hyperparameter_search self n_trials w = (r, w') →
  ∃ study w2 r2 w3,
    verbosity w2 = WARNING ∧
    optimize study (λ trial, objective self trial train_df test_df) n_trials w2
      = (r2, w3) ∧
    match r2 with
    | Ok _ => verbosity w' = verbosity w1
    | Raise e =>
        r = Raise e ∧ w' = w3 ∧
        ((∀ trial w r w', objective self trial train_df test_df w = (r, w') →
                          verbosity w' = verbosity w) →
         verbosity w' = WARNING)
    end.
Proof.
  intros Hpre. unfold hyperparameter_search, bind at 1. rewrite Hpre.
  unfold bind at 1, create_study. unfold bind at 1, get_verbosity. simpl.
  unfold bind at 1, set_verbosity. unfold bind at 1.
  set (study := fresh (dom (studies w1))).
  set (w2 := set_verb WARNING _).
  destruct (optimize study _ n_trials w2) as [[u|e] w3] eqn:Hopt.
  - intros Hrest. exists study, w2, (Ok u), w3. split; [done|]. split; [done|].
    unfold bind at 1 in Hrest. simpl in Hrest.
    unfold best_params, bind, get_study in Hrest. simpl in Hrest.
    destruct (studies w3 !! study) as [st|]; [|by injection Hrest as _ <-].
    destruct (best_trial (trials st)) as [[t v]|]; by injection Hrest as _ <-.
  - intros [= <- <-]. exists study, w2, (Raise e), w3.
    split; [done|]. split; [done|]. split; [done|]. split; [done|].
    intros Hobj. unfold optimize in Hopt.
    by apply optimize_loop_verbosity in Hopt.
Qed.

(** ** The registry *)

Lemma getattr_name_new q base attr i :
  getattr_name (length (classes i))
    {| classes := classes i
                  ++ [ {| cls_qualname := q; cls_base := base; cls_name := attr |} ];
       REGISTRY := REGISTRY i |} = attr.
Proof.
  unfold getattr_name. simpl.
  rewrite lookup_app_r, Nat.sub_diag by done. done.
Qed.

Lemma class_stmt_named q base s i :
  class_stmt q base (Some (Some s)) i
  = (length (classes i),
     {| classes := classes i
                   ++ [ {| cls_qualname := q; cls_base := Some base;
                           cls_name := Some s |} ];
        REGISTRY := <[s := length (classes i)]> (REGISTRY i) |}).
Proof.
  unfold class_stmt, __init_subclass__. by rewrite getattr_name_new.
Qed.

Lemma class_stmt_keeps q base body i :
  dom (REGISTRY i) ⊆ dom (REGISTRY (class_stmt q base body i).2).
Proof.
  unfold class_stmt, __init_subclass__. rewrite getattr_name_new. simpl.
  destruct (match body with Some v => v | None => getattr_name base i end);
    simpl; [|done].
  rewrite dom_insert. apply union_subseteq_r.
Qed.

(** C7. A class statement under the base whose body binds [name] to a
    string leaves the registry mapping that string to the new class as soon
    as the class exists; after two such statements with one name the
    registry maps the name to the second class, which is not the first;
    and whatever class statements run, every name the registry had it
    still has. *)
Theorem registry_last_write_wins :
  (∀ q base s i,
     REGISTRY (class_stmt q base (Some (Some s)) i).2 !! s
     = Some (class_stmt q base (Some (Some s)) i).1) ∧
  (∀ q1 b1 q2 b2 s i,
     let first := class_stmt q1 b1 (Some (Some s)) i in
     let second := class_stmt q2 b2 (Some (Some s)) first.2 in
     REGISTRY second.2 !! s = Some second.1 ∧ second.1 ≠ first.1) ∧
  (∀ stmts i, dom (REGISTRY i) ⊆ dom (REGISTRY (class_stmts stmts i))).
Proof.
  split; [|split].
  - intros q base s i. rewrite class_stmt_named. simpl. apply lookup_insert_eq.
  - intros q1 b1 q2 b2 s i. cbv zeta. rewrite !class_stmt_named. simpl.
    split; [apply lookup_insert_eq|]. rewrite length_app. simpl. lia.
  - intros stmts. induction stmts as [|[[q b] body] stmts IH]; intros i; simpl.
    + done.
    + etrans; [apply (class_stmt_keeps q b body)|]. apply IH.
Qed.

(** ** More on the registry *)

Lemma last_named_from_snoc n s cs c :
  last_named_from n s (cs ++ [c])
  = if decide (cls_name c = Some s) then Some (n + length cs)%nat
    else last_named_from n s cs.
Proof.
  revert n. induction cs as [|c' cs IH]; intros n; simpl.
  - rewrite Nat.add_0_r. by destruct (decide _).
  - rewrite IH. destruct (decide (cls_name c = Some s)); [|done].
    f_equal. lia.
Qed.

Lemma class_stmt_last_named q base body i :
  (∀ s, REGISTRY i !! s = last_named s i) →
  ∀ s, REGISTRY (class_stmt q base body i).2 !! s
       = last_named s (class_stmt q base body i).2.
Proof.
  intros Hinv s. unfold class_stmt, __init_subclass__, last_named.
  rewrite getattr_name_new.
  destruct (match body with Some v => v | None => getattr_name base i end)
    as [name|]; simpl; rewrite last_named_from_snoc; simpl.
  - destruct (decide (Some name = Some s)) as [[= ->]|Hne].
    + by rewrite lookup_insert_eq.
    + rewrite lookup_insert_ne by congruence. apply Hinv.
  - apply Hinv.
Qed.

(** X1. After any sequence of class statements run on the module as loaded,
    the registry is exactly the map from a name to the last class created
    whose attribute [name] is that name: a name no class has is absent, and
    an entry never points to an earlier class of the same name. *)
Theorem registry_is_last_named stmts s :
  REGISTRY (class_stmts stmts interp0) !! s
  = last_named s (class_stmts stmts interp0).
Proof.
  assert (∀ i, (∀ s, REGISTRY i !! s = last_named s i) →
               ∀ s, REGISTRY (class_stmts stmts i) !! s
                    = last_named s (class_stmts stmts i)) as Hgen.
  { induction stmts as [|[[q b] body] stmts IH]; intros i Hinv; simpl; [done|].
    apply IH. by apply class_stmt_last_named. }
  apply Hgen. intros s'. done.
Qed.

(** X2. [__init_subclass__] reads [cls.name] through attribute lookup.
    Under a base class whose [name] is a string, a subclass that binds no
    [name] of its own inherits it and takes over the registry entry of that
    name; a subclass that binds [name = None] leaves the registry as it
    is. *)
Theorem registry_follows_attribute_lookup q base s i :
  getattr_name base i = Some s →
  (REGISTRY (class_stmt q base None i).2 !! s = Some (class_stmt q base None i).1 ∧
   (class_stmt q base None i).1 ≠ base) ∧
  REGISTRY (class_stmt q base (Some None) i).2 = REGISTRY i.
Proof.
  intros Hbase. unfold class_stmt, __init_subclass__. rewrite !getattr_name_new.
  rewrite Hbase. simpl. split; [|done].
  split; [apply lookup_insert_eq|].
  unfold getattr_name in Hbase.
  destruct (classes i !! base) as [c|] eqn:Hc; [|done].
  apply lookup_lt_Some in Hc. lia.
Qed.

(** ** [train], its setup and its body *)

(** X3. A failure of the classifier factory is not caught: on well-formed
    tables, [train] of a model whose [init_classifier] raises ends with that
    exception, raised in the first Fold Training Step, and has printed
    nothing. So does [train] of a [BaseModel], whose factory raises
    [NotImplementedError]. *)
Theorem train_factory_failure self df test_df params verbose (w : World)
    rows trows e :
  heap w !! df = Some (TrainFrame rows) →
  heap w !! test_df = Some (TestFrame trows) →
  init_classifier self params = Raise e →
  ∃ w', train self df test_df params verbose w = (Raise e, w') ∧
        stdout w' = stdout w.
Proof.
  intros Hdf Htest Hinit.
  destruct (train_setup_runs df test_df w rows trows Hdf Htest)
    as (df' & test_df' & w0 & Hsetup & Hdf0 & _ & _ & Hout & _).
  exists w0. split; [|done].
  rewrite train_split. eapply bind_Ok_intro; [exact Hsetup|]. simpl.
  unfold train_body. apply bind_Raise_intro. simpl. apply bind_Raise_intro.
  unfold _train_fold.
  eapply bind_Ok_intro; [by apply train_rows_intro|].
  eapply bind_Ok_intro.
  { unfold lift. by rewrite (train_drop_columns rows) by apply working_initial. }
  eapply bind_Ok_intro.
  { unfold lift. by rewrite (train_drop_columns rows) by apply working_initial. }
  apply bind_Raise_intro. unfold lift. by rewrite Hinit.
Qed.

(** X9. Tables without the columns the code asks for. If the test table has
    no ["PassengerId"], [train] raises the [KeyError] of [drop] before any
    fold runs; if it has but the training table has no ["kfold"], [train]
    raises [KeyError] in the first Fold Training Step. In both cases
    nothing is printed. *)
Theorem train_malformed_tables self df test_df params verbose (w : World) d t :
  heap w !! df = Some d →
  heap w !! test_df = Some t →
  (has_PassengerId t = false →
   ∃ w', train self df test_df params verbose w
         = (Raise (KeyError "['PassengerId'] not found in axis"), w') ∧
         stdout w' = stdout w) ∧
  (has_PassengerId t = true → has_kfold d = false →
   ∃ w', train self df test_df params verbose w = (Raise (KeyError "kfold"), w') ∧
         stdout w' = stdout w).
Proof.
  intros Hdf Htest.
  set (df' := fresh (dom (heap w))).
  assert (df' ∉ dom (heap w)) as Hfresh by apply is_fresh.
  set (w1 := set_heap (<[df' := d]> (heap w)) w).
  assert (DataFrame_copy df w = (Ok df', w1)) as Hcopy.
  { unfold DataFrame_copy. eapply bind_Ok_intro; [by apply deref_intro|done]. }
  assert (test_df ≠ df') as Hne1.
  { intros ->. apply Hfresh. apply elem_of_dom. eauto. }
  assert (deref test_df w1 = (Ok t, w1)) as Ht1.
  { apply deref_intro. simpl. by rewrite lookup_insert_ne. }
  split.
  - intros Ht. exists w1. split; [|done].
    unfold train. eapply bind_Ok_intro; [exact Hcopy|].
    apply bind_Raise_intro. unfold drop_PassengerId.
    eapply bind_Ok_intro; [exact Ht1|]. destruct t; done.
  - intros Ht Hd. destruct t as [|trows|]; try discriminate.
    set (test_df' := fresh (dom (heap w1))).
    assert (test_df' ∉ dom (heap w1)) as Hfresh2 by apply is_fresh.
    set (w2 := set_heap (<[test_df' := XFrame (test_view ["PassengerId"] <$> trows)]>
                           (heap w1)) w1).
    assert (df' ≠ test_df') as Hne2.
    { intros Heq. apply Hfresh2. rewrite <- Heq. simpl. rewrite dom_insert_L.
      set_solver. }
    assert (deref df' w2 = (Ok d, w2)) as Hd2.
    { apply deref_intro. simpl. by rewrite lookup_insert_ne, lookup_insert_eq. }
    exists w2. split; [|done].
    unfold train. eapply bind_Ok_intro; [exact Hcopy|].
    eapply bind_Ok_intro.
    { unfold drop_PassengerId. eapply bind_Ok_intro; [exact Ht1|]. reflexivity. }
    eapply bind_Ok_intro.
    { unfold setitem_preds_NA. eapply bind_Ok_intro; [exact Hd2|].
      destruct d; [discriminate|reflexivity..]. }
    apply bind_Raise_intro. simpl. apply bind_Raise_intro.
    unfold _train_fold. apply bind_Raise_intro.
    unfold train_rows. eapply bind_Ok_intro; [exact Hd2|].
    destruct d; [discriminate|reflexivity..].
Qed.

(** ** The console, the verbosity and the studies *)

Lemma console_frame_bind {A B} verbose (m : M World A) (k : A → M World B) :
  console_frame verbose m → (∀ a, console_frame verbose (k a)) →
  console_frame verbose (bind m k).
Proof.
  intros Hm Hk w r w'. unfold bind.
  destruct (m w) as [[a|e] w1] eqn:Hmw.
  - intros Hka.
    destruct (Hm _ _ _ Hmw) as (Hv1 & Hs1 & l1 & Ho1 & Hq1).
    destruct (Hk a _ _ _ Hka) as (Hv2 & Hs2 & l2 & Ho2 & Hq2).
    split; [congruence|]. split; [congruence|].
    exists (l1 ++ l2). split; [by rewrite Ho2, Ho1, app_assoc|].
    intros Hq. by rewrite Hq1, Hq2.
  - intros [= <- <-]. by eapply Hm.
Qed.

Lemma console_frame_heap_only {A} verbose (m : M World A) :
  (∀ w, verbosity (m w).2 = verbosity w ∧ studies (m w).2 = studies w ∧
        stdout (m w).2 = stdout w) →
  console_frame verbose m.
Proof.
  intros Hm w r w' Hrun. destruct (Hm w) as (Hv & Hs & Ho).
  rewrite Hrun in Hv, Hs, Ho. simpl in *.
  split; [done|]. split; [done|]. exists []. by rewrite app_nil_r.
Qed.

Lemma console_frame_ret {A} verbose (a : A) : console_frame verbose (ret a).
Proof. by apply console_frame_heap_only. Qed.

Lemma console_frame_raise {A} verbose e : console_frame verbose (raise (A:=A) e).
Proof. by apply console_frame_heap_only. Qed.

Lemma console_frame_lift {A} verbose (o : outcome A) :
  console_frame verbose (lift o).
Proof. by apply console_frame_heap_only. Qed.

Lemma console_frame_deref verbose l : console_frame verbose (deref l).
Proof.
  apply console_frame_heap_only. intros w. unfold deref.
  by destruct (heap w !! l).
Qed.

Lemma console_frame_alloc verbose d : console_frame verbose (alloc d).
Proof. by apply console_frame_heap_only. Qed.

Lemma console_frame_store verbose l d : console_frame verbose (store l d).
Proof. by apply console_frame_heap_only. Qed.

Lemma console_frame_print verbose line :
  console_frame verbose (if verbose then print line else ret tt).
Proof.
  destruct verbose.
  - intros w r w' [= <- <-]. simpl. split; [done|]. split; [done|].
    exists [line]. done.
  - apply console_frame_ret.
Qed.

Lemma console_frame_train_rows verbose df : console_frame verbose (train_rows df).
Proof.
  apply console_frame_bind; [apply console_frame_deref|].
  intros [| |]; auto using console_frame_ret, console_frame_raise.
Qed.

Lemma console_frame_train_fold self df test_df fold params drop verbose :
  console_frame verbose (_train_fold self df test_df fold params drop verbose).
Proof.
  unfold _train_fold, setitem_loc_preds.
  repeat first
    [ apply console_frame_train_rows
    | apply console_frame_bind; [|intros ?]
    | apply console_frame_lift
    | apply console_frame_print
    | apply console_frame_deref
    | apply console_frame_ret
    | apply console_frame_store ].
Qed.

Lemma console_frame_train_loop self df test_df params drop verbose folds a ps :
  console_frame verbose
    (train_loop self df test_df params drop verbose folds a ps).
Proof.
  revert a ps. induction folds as [|fold folds IH]; intros a ps; simpl.
  - apply console_frame_ret.
  - apply console_frame_bind; [apply console_frame_train_fold|].
    intros [tp acc]. apply IH.
Qed.

Lemma console_frame_train_setup verbose df test_df :
  console_frame verbose (train_setup df test_df).
Proof.
  unfold train_setup, DataFrame_copy, drop_PassengerId, setitem_preds_NA.
  apply console_frame_bind.
  { apply console_frame_bind; [apply console_frame_deref|].
    intros ?. apply console_frame_alloc. }
  intros df'. apply console_frame_bind.
  { apply console_frame_bind; [apply console_frame_deref|].
    intros [| |]; auto using console_frame_alloc, console_frame_raise. }
  intros test_df'. apply console_frame_bind; [|intros ?; apply console_frame_ret].
  apply console_frame_bind; [apply console_frame_deref|].
  intros [| |]; auto using console_frame_store, console_frame_ret.
Qed.

Lemma console_frame_train_body self df test_df params verbose :
  console_frame verbose (train_body self df test_df params verbose).
Proof.
  unfold train_body, getitem_preds.
  apply console_frame_bind; [apply console_frame_train_loop|].
  intros [total_acc test_preds].
  repeat first
    [ apply console_frame_train_rows
    | apply console_frame_bind; [|intros ?]
    | apply console_frame_lift
    | apply console_frame_print
    | apply console_frame_ret ].
Qed.

(** X5. [train] leaves optuna's verbosity and studies as they are and only
    adds lines to the console, whether it returns or raises; with
    [verbose=False] it prints nothing at all. *)
Theorem train_console_frame self df test_df params verbose (w : World) :
  let w' := (train self df test_df params verbose w).2 in
  verbosity w' = verbosity w ∧ studies w' = studies w ∧
  ∃ lines, stdout w' = stdout w ++ lines ∧ (verbose = false → lines = []).
Proof.
  simpl.
  destruct (train self df test_df params verbose w) as [r w'] eqn:Hrun. simpl.
  rewrite train_split in Hrun. revert Hrun.
  apply (console_frame_bind verbose).
  - apply console_frame_train_setup.
  - intros [df' test_df']. apply console_frame_train_body.
Qed.

Lemma folds_run_stdout self df test_df params drop verbose folds (w : World)
    steps w' :
  folds_run self df test_df params drop verbose folds w steps w' →
  stdout w' = stdout w
              ++ (if verbose
                  then (λ s, fold_line (st_fold s) (st_acc s)) <$> steps
                  else []).
Proof.
  induction 1 as [w|fold folds w tp acc w1 steps w' Hstep _ IH].
  - destruct verbose; by rewrite app_nil_r.
  - apply train_fold_Ok in Hstep
      as (? & ? & ? & ? & ? & ? & ? & ? & ? & ? & Hstep).
    simpl in Hstep. destruct Hstep as (_ & _ & _ & _ & _ & _ & _ & _ & _ & _ & _
                                       & _ & _ & _ & _ & Hout).
    rewrite IH, Hout. destruct verbose; simpl; by rewrite <- app_assoc.
Qed.

(** X4. What a verbose [train] that returns has printed: the line of fold 1
    to the line of fold 5, in this order, each with the accuracy of its
    Fold Training Step, and then the line of the overall accuracy it
    returns; a [train] that is not verbose has printed nothing. *)
Theorem train_console_output self df test_df params verbose (w : World)
    oof tp acc w' :
  train self df test_df params verbose w = (Ok (oof, tp, acc), w') →
  ∃ df' s0 s1 s2 s3 s4,
    train_steps self df test_df params verbose w df' [s0; s1; s2; s3; s4] ∧
    stdout w'
    = stdout w
      ++ (if verbose
          then [ fold_line 0 (st_acc s0); fold_line 1 (st_acc s1);
                 fold_line 2 (st_acc s2); fold_line 3 (st_acc s3);
                 fold_line 4 (st_acc s4); overall_line acc ]
          else []).
Proof.
  rewrite train_split. intros Hb.
  apply bind_Ok in Hb as ([df' test_df'] & w0 & Hsetup & Hbody). simpl in Hbody.
  destruct (console_frame_train_setup false _ _ _ _ _ Hsetup)
    as (_ & _ & l0 & Hout0 & Hl0).
  rewrite (Hl0 eq_refl), app_nil_r in Hout0.
  unfold train_body in Hbody.
  apply bind_Ok in Hbody as ([total_acc test_preds] & w3 & Hloop & Hb).
  apply train_loop_Ok in Hloop as (steps & Hrun & -> & ->).
  apply bind_Ok in Hb as (u & w4 & Hprint & Hb).
  apply print_verbose_Ok in Hprint as (_ & _ & _ & Hout4).
  apply bind_Ok in Hb as (m & w5 & Hm & Hb). apply lift_Ok in Hm as [_ ->].
  apply bind_Ok in Hb as (oof' & w5 & Hget & Hb).
  unfold getitem_preds in Hget.
  apply bind_Ok in Hget as (rows_end & w6 & Hrows & Hget).
  apply train_rows_Ok in Hrows as [_ ->]. apply lift_Ok in Hget as [_ ->].
  apply ret_Ok in Hb as [[= _ _ ->] ->].
  pose proof (folds_run_stdout _ _ _ _ _ _ _ _ _ _ Hrun) as Hout3.
  pose proof (folds_run_folds _ _ _ _ _ _ _ _ _ _ Hrun) as Hfolds.
  destruct (folds_run_range5 _ _ _ _ _ _ _ _ _ Hrun)
    as (s0 & s1 & s2 & s3 & s4 & ->).
  injection Hfolds as Hf0 Hf1 Hf2 Hf3 Hf4.
  exists df', s0, s1, s2, s3, s4. split; [by exists test_df', w0, w3|].
  rewrite Hout4, Hout3, Hout0. destruct verbose; simpl.
  - rewrite Hf0, Hf1, Hf2, Hf3, Hf4, <- app_assoc. done.
  - by rewrite !app_nil_r.
Qed.

(** ** More on the out-of-fold vector and the folds *)

(** X10. The missing entries of the out-of-fold vector are exactly the rows
    whose fold index is none of 0 .. 4: on a table with a unique index,
    whatever its fold indices, the vector [train] returns has one entry per
    row, and the entry is [pd.NA] if and only if the row's fold index is
    outside [0,5). *)
Theorem train_oof_missing_iff self df test_df params verbose (w : World)
    rows oof tp acc w' :
  heap w !! df = Some (TrainFrame rows) →
  NoDup (label <$> rows) →
  train self df test_df params verbose w = (Ok (oof, tp, acc), w') →
  length oof = length rows ∧
  ∀ i r, rows !! i = Some r →
    ∃ c, oof !! i = Some c ∧ (c = NA ↔ ¬ (0 ≤ kfold r < 5)).
Proof.
  intros Hdf Hnd Hrun.
  destruct (train_run_inv _ _ _ _ _ _ _ _ _ _ _ Hdf (or_introl Hnd) Hrun)
    as (df' & steps & w1 & rend & _ & _ & _ & Hoof & Hinv & _).
  split.
  { rewrite (outcome_mapM_length _ _ _ Hoof). symmetry. by eapply Forall2_length. }
  intros i r Hi.
  destruct (Forall2_lookup_l _ _ _ _ _ Hinv Hi) as (r' & Hi' & (c & -> & Hin & Hout)).
  exists c. split; [by eapply oof_lookup|]. split.
  - intros -> Hr. by destruct (Hin Hr).
  - apply Hout.
Qed.

(** X6. What earlier folds wrote into ["preds"] does not reach a later
    fold's classifier. Given that dropping the columns ["Transported"],
    ["preds"] and ["kfold"] hides the cell of ["preds"], in every Fold
    Training Step of a run of [train] the classifier is fitted on, and
    scored against, features and labels of the caller's rows alone: the
    in-fold and held-out rows of the caller's table. *)
Theorem train_folds_see_caller_rows self df test_df params verbose (w : World)
    rows oof tp acc w' :
  (∀ c r, row_view train_drop (set_preds c r) = row_view train_drop r) →
  heap w !! df = Some (TrainFrame rows) →
  train self df test_df params verbose w = (Ok (oof, tp, acc), w') →
  ∃ df' steps,
    train_steps self df test_df params verbose w df' steps ∧
    st_fold <$> steps = range5 ∧
    ∀ s, s ∈ steps →
      let train := filter (λ r, kfold r ≠ st_fold s) rows in
      let val := filter (λ r, kfold r = st_fold s) rows in
      ∃ clf0 fit_params clf val_pred val_proba,
        init_classifier self params = Ok clf0 ∧
        extra_fit_parameters self
          (row_view train_drop <$> train) (Transported <$> train)
          (row_view train_drop <$> val) (Transported <$> val) params
          = Ok fit_params ∧
        fit clf0 (row_view train_drop <$> train) (Transported <$> train) fit_params
          = Ok clf ∧
        predict clf (row_view train_drop <$> val) = Ok val_pred ∧
        accuracy_score (Transported <$> val) val_pred = Ok (st_acc s) ∧
        predict_proba clf (row_view train_drop <$> val) = Ok val_proba.
Proof.
  intros Hview Hdf Hrun.
  destruct (train_run_working _ _ _ _ _ _ _ _ _ _ _ Hdf Hrun)
    as (df' & test_df' & w0 & steps & w3 & Hsetup & Hfrun & Hstep).
  exists df', steps. split; [by exists test_df', w0, w3|].
  split; [by eapply folds_run_folds|].
  intros s Hs. simpl.
  destruct (Hstep s Hs) as (rb & Hrb & Hsame).
  pose proof (folds_run_step _ _ _ _ _ _ _ _ _ _ s Hfrun Hs) as Heq.
  apply train_fold_Ok in Heq
    as (rows0 & clf0 & kw & clf & vp & vpr & vp1 & rows' & test & tpr & Heq).
  simpl in Heq.
  destruct Heq as (Hrb' & Hinit & Hkw & Hfit & Hpred & Hacc & Hproba & _).
  rewrite Hrb in Hrb'. injection Hrb' as <-.
  destruct (working_rows_split rows rb (st_fold s) Hview Hsame)
    as (HX1 & Hy1 & HX2 & Hy2).
  rewrite HX1, HX2, Hy1, Hy2 in *.
  exists clf0, kw, clf, vp, vpr. repeat split; done.
Qed.

(** ** The search without trials *)

(** X8. Asked for no trial ([n_trials <= 0]), the search never calls the
    objective: it makes its study, which stays without trials, sets the
    verbosity back and then fails in [study.best_params] with optuna's
    [ValueError]; tables and console are as after [preprocess_datasets]. *)
Theorem hyperparameter_search_no_trials self n_trials (w : World)
    train_df test_df w1 :
  preprocess_datasets self w = (Ok (train_df, test_df), w1) →
  n_trials ≤ 0 →
  ∃ study w',
    hyperparameter_search self n_trials w
      = (Raise (ValueError "No trials are completed yet."), w') ∧
    (study ∉ dom (studies w1)) ∧
    studies w' = <[study := {| sampler_seed := 42; trials := [] |}]> (studies w1) ∧
    verbosity w' = verbosity w1 ∧ heap w' = heap w1 ∧ stdout w' = stdout w1.
Proof.
  intros Hpre Hn. exists (fresh (dom (studies w1))).
  unfold hyperparameter_search, optimize.
  replace (Z.to_nat n_trials) with O by lia.
  eexists. split.
  - eapply bind_Ok_intro; [exact Hpre|]. simpl.
    unfold bind, create_study, get_verbosity, set_verbosity, best_params,
      get_study, ret, raise. simpl.
    unfold bind. simpl. rewrite lookup_insert_eq. simpl. reflexivity.
  - simpl. split; [apply is_fresh|]. done.
Qed.

(** ** What the result of [train] depends on *)

Lemma rel_M_bind {A B} I (m1 m2 : M World A) (k1 k2 : A → M World B) :
  rel_M I m1 m2 → (∀ a, rel_M I (k1 a) (k2 a)) →
  rel_M I (bind m1 k1) (bind m2 k2).
Proof.
  intros Hm Hk w1 w2 HI. unfold bind.
  destruct (Hm w1 w2 HI) as [Heq HI'].
  destruct (m1 w1) as [[a|e] w1'], (m2 w2) as [[b|e'] w2']; simpl in *;
    try discriminate.
  - injection Heq as <-. by apply Hk.
  - injection Heq as <-. done.
Qed.

Lemma rel_M_lift {A} I (o : outcome A) : rel_M I (lift o) (lift o).
Proof. intros w1 w2 HI. done. Qed.

Lemma rel_M_ret {A} I (a : A) : rel_M I (ret a) (ret a).
Proof. intros w1 w2 HI. done. Qed.

Section SameTables.
Context (df1 test1 df2 test2 : loc).

Lemma rel_M_print (v1 v2 : bool) line1 line2 :
  rel_M (same_tables df1 test1 df2 test2) (if v1 then print line1 else ret tt) (if v2 then print line2 else ret tt).
Proof. intros w1 w2 HI. destruct v1, v2; simpl; split; done. Qed.

Lemma rel_M_train_rows : rel_M (same_tables df1 test1 df2 test2) (train_rows df1) (train_rows df2).
Proof.
  intros w1 w2 HI. pose proof HI as [Hdf Htest].
  unfold train_rows, bind, deref. rewrite Hdf.
  destruct (heap w2 !! df2) as [[| |]|]; simpl; split; done.
Qed.

Lemma rel_M_deref_test : rel_M (same_tables df1 test1 df2 test2) (deref test1) (deref test2).
Proof.
  intros w1 w2 HI. pose proof HI as [Hdf Htest]. unfold deref. rewrite Htest.
  destruct (heap w2 !! test2); simpl; split; done.
Qed.

Lemma rel_M_store d : df1 ≠ test1 → df2 ≠ test2 → rel_M (same_tables df1 test1 df2 test2) (store df1 d) (store df2 d).
Proof.
  intros Hne1 Hne2 w1 w2 [Hdf Htest]. split; [done|]. split; simpl.
  - by rewrite !lookup_insert_eq.
  - by rewrite !lookup_insert_ne.
Qed.

Lemma rel_M_train_fold self fold params drop v1 v2 :
  df1 ≠ test1 → df2 ≠ test2 →
  rel_M (same_tables df1 test1 df2 test2) (_train_fold self df1 test1 fold params drop v1)
          (_train_fold self df2 test2 fold params drop v2).
Proof.
  intros Hne1 Hne2. unfold _train_fold, setitem_loc_preds.
  repeat first
    [ apply rel_M_train_rows
    | apply rel_M_deref_test
    | apply rel_M_bind; [|intros ?]
    | apply rel_M_lift
    | apply rel_M_print
    | apply rel_M_ret
    | by apply rel_M_store ].
Qed.

Lemma rel_M_train_loop self params drop v1 v2 folds a ps :
  df1 ≠ test1 → df2 ≠ test2 →
  rel_M (same_tables df1 test1 df2 test2) (train_loop self df1 test1 params drop v1 folds a ps)
          (train_loop self df2 test2 params drop v2 folds a ps).
Proof.
  intros Hne1 Hne2. revert a ps.
  induction folds as [|fold folds IH]; intros a ps; simpl.
  - apply rel_M_ret.
  - apply rel_M_bind; [by apply rel_M_train_fold|]. intros [tp acc]. apply IH.
Qed.

Lemma rel_M_train_body self params v1 v2 :
  df1 ≠ test1 → df2 ≠ test2 →
  rel_M (same_tables df1 test1 df2 test2) (train_body self df1 test1 params v1)
          (train_body self df2 test2 params v2).
Proof.
  intros Hne1 Hne2. unfold train_body, getitem_preds.
  apply rel_M_bind; [by apply rel_M_train_loop|].
  intros [total_acc test_preds].
  repeat first
    [ apply rel_M_train_rows
    | apply rel_M_bind; [|intros ?]
    | apply rel_M_lift
    | apply rel_M_print
    | apply rel_M_ret ].
Qed.

End SameTables.

(** X7. What [train] gives back, a result or an exception, is decided by
    the model, the hyperparameters and what the two tables hold apart from
    any column ["preds"]: two calls on tables with the same rows but for
    ["preds"] and the same test rows end alike, wherever the tables live,
    whatever else the worlds hold, and whether verbose or not. *)
Theorem train_depends_on_tables_only self params v1 v2 df1 test1 df2 test2
    (w1 w2 : World) rows1 rows2 trows :
  heap w1 !! df1 = Some (TrainFrame rows1) →
  heap w1 !! test1 = Some (TestFrame trows) →
  heap w2 !! df2 = Some (TrainFrame rows2) →
  heap w2 !! test2 = Some (TestFrame trows) →
  set_preds (Some NA) <$> rows1 = set_preds (Some NA) <$> rows2 →
  (train self df1 test1 params v1 w1).1 = (train self df2 test2 params v2 w2).1.
Proof.
  intros Hdf1 Ht1 Hdf2 Ht2 Hrows.
  destruct (train_setup_runs df1 test1 w1 rows1 trows Hdf1 Ht1)
    as (df1' & t1' & w01 & Hsetup1 & Hd1 & Hx1 & Hne1 & _).
  destruct (train_setup_runs df2 test2 w2 rows2 trows Hdf2 Ht2)
    as (df2' & t2' & w02 & Hsetup2 & Hd2 & Hx2 & Hne2 & _).
  rewrite !train_split. unfold bind. rewrite Hsetup1, Hsetup2. simpl.
  apply (rel_M_train_body df1' t1' df2' t2' self params v1 v2 Hne1 Hne2).
  split; [by rewrite Hd1, Hd2, Hrows | by rewrite Hx1, Hx2].
Qed.

End Properties.

(** * The properties at the concrete instance *)

#[local] Existing Instances Dummy.types Dummy.float_ops Dummy.schema
  Dummy.classifier Dummy.metrics Dummy.optuna.

Lemma NoDup_labels_df12 : NoDup (label <$> Dummy.df12).
Proof. apply (bool_decide_unpack _). vm_compute. exact I. Defined.

(** The classifier of the concrete instance gives one row of
    probabilities per sample. *)
Lemma Dummy_proba_per_row : proba_per_row.
Proof. intros clf X proba [= <-]. apply length_fmap. Qed.

Lemma train_oof_written_once_witness :
  Dummy.train_run10.1 = Ok (Dummy.oof10, Dummy.test_preds10, Dummy.acc10) ∧
  oof_written_once Dummy.model 0%nat 1%nat (5 : Z) false
    (Dummy.world0 Dummy.df10) Dummy.df10 Dummy.oof10.
Proof.
  split; [vm_compute; reflexivity|].
  apply (train_oof_written_once Dummy.model 0%nat 1%nat (5 : Z) false
           (Dummy.world0 Dummy.df10) Dummy.df10 Dummy.oof10
           Dummy.test_preds10 Dummy.acc10 Dummy.train_run10.2).
  - reflexivity.
  - intros r Hr. unfold Dummy.df10 in Hr.
    repeat (apply elem_of_cons in Hr as [->|Hr]; [simpl; lia|]).
    inversion Hr.
  - exact Dummy_proba_per_row.
  - vm_compute. reflexivity.
Defined.

Lemma train_accuracy_is_mean_witness :
  Dummy.train_run10.1 = Ok (Dummy.oof10, Dummy.test_preds10, Dummy.acc10) ∧
  ∃ df' s0 s1 s2 s3 s4,
    train_steps Dummy.model 0%nat 1%nat (5 : Z) false (Dummy.world0 Dummy.df10)
      df' [s0; s1; s2; s3; s4] ∧
    Dummy.acc10
    = fdiv (fadd (fadd (fadd (fadd (fadd fzero (st_acc s0)) (st_acc s1))
                             (st_acc s2)) (st_acc s3)) (st_acc s4))
           (F_of_Z 5).
Proof.
  split; [vm_compute; reflexivity|].
  apply (train_accuracy_is_mean Dummy.model 0%nat 1%nat (5 : Z) false
           (Dummy.world0 Dummy.df10) Dummy.oof10 Dummy.test_preds10 Dummy.acc10
           Dummy.train_run10.2).
  vm_compute. reflexivity.
Defined.

Lemma train_test_preds_is_mean_witness :
  Dummy.train_run10.1 = Ok (Dummy.oof10, Dummy.test_preds10, Dummy.acc10) ∧
  ∃ df' s0 s1 s2 s3 s4,
    train_steps Dummy.model 0%nat 1%nat (5 : Z) false (Dummy.world0 Dummy.df10)
      df' [s0; s1; s2; s3; s4] ∧
    Forall (λ s, length (st_pred s) = length Dummy.test_preds10) [s0; s1; s2; s3; s4] ∧
    ∀ j x0 x1 x2 x3 x4,
      st_pred s0 !! j = Some x0 → st_pred s1 !! j = Some x1 →
      st_pred s2 !! j = Some x2 → st_pred s3 !! j = Some x3 →
      st_pred s4 !! j = Some x4 →
      Dummy.test_preds10 !! j
      = Some (fdiv (fadd (fadd (fadd (fadd x0 x1) x2) x3) x4) (F_of_Z 5)).
Proof.
  split; [vm_compute; reflexivity|].
  apply (train_test_preds_is_mean Dummy.model 0%nat 1%nat (5 : Z) false
           (Dummy.world0 Dummy.df10) Dummy.oof10 Dummy.test_preds10 Dummy.acc10
           Dummy.train_run10.2).
  vm_compute. reflexivity.
Defined.

Lemma train_fold_spec_witness :
  Dummy.fold2_run.1 = Ok ([(5 # 8)%Q; (5 # 8)%Q; (5 # 8)%Q], (1 # 2)%Q) ∧
  fold_step_post Dummy.model 0%nat 1%nat 2 (5 : Z) ["Transported"; "preds"; "kfold"]
    Dummy.world_fold Dummy.df10_NA
    [(5 # 8)%Q; (5 # 8)%Q; (5 # 8)%Q] (1 # 2)%Q Dummy.fold2_run.2.
Proof.
  split; [vm_compute; reflexivity|].
  apply (train_fold_spec Dummy.model 0%nat 1%nat 2 (5 : Z)
           ["Transported"; "preds"; "kfold"] false Dummy.world_fold).
  - reflexivity.
  - exact Dummy_proba_per_row.
  - vm_compute. reflexivity.
Defined.

Lemma train_leaves_callers_tables_witness :
  heap Dummy.train_run10.2 !! 0%nat = Some (TrainFrame Dummy.df10) ∧
  heap Dummy.train_run10.2 !! 1%nat = Some (TestFrame Dummy.test3).
Proof.
  apply (train_leaves_callers_tables Dummy.model 0%nat 1%nat (5 : Z) false
           (Dummy.world0 Dummy.df10) (TrainFrame Dummy.df10) (TestFrame Dummy.test3)
           Dummy.train_run10.1 Dummy.train_run10.2).
  - reflexivity.
  - reflexivity.
  - vm_compute. reflexivity.
Defined.

(** The collaborators of the concrete instance answer in every fold. *)
Lemma Dummy_fold_answers rows xs fold :
  fold_answers Dummy.model (5 : Z) rows xs fold.
Proof.
  unfold fold_answers. do 7 eexists.
  split; [reflexivity|]. split; [reflexivity|]. split; [reflexivity|].
  split; [reflexivity|]. split.
  { cbn [accuracy_score Dummy.metrics].
    rewrite bool_decide_true by (by rewrite !length_fmap). reflexivity. }
  split; [reflexivity|]. split.
  { apply Forall_fmap, Forall_forall. intros x _. simpl. lia. }
  split; [reflexivity|].
  apply Forall_fmap, Forall_forall. intros x _. simpl. lia.
Qed.

(** In the thirteen rows only rows of no fold share a label. *)
Lemma held_out_labels_unique_df13 : held_out_labels_unique Dummy.df13.
Proof.
  intros r Hr Hk. apply positions_occurs_once.
  apply list_elem_of_lookup_1 in Hr as [i Hi].
  do 13 (destruct i as [|i];
         [injection Hi as <-; first [ simpl in Hk; lia | vm_compute; lia ]|]).
  discriminate.
Qed.


(** A Fold Training Step that is to drop ["preds"] from a table without
    that column fails in [drop]. *)
Example train_fold_missing_column_raises :
  (_train_fold Dummy.model 0%nat 1%nat 2 (5 : Z) ["Transported"; "preds"; "kfold"]
     false (Dummy.world0 Dummy.df10)).1
  = Raise (KeyError "['preds'] not found in axis").
Proof. vm_compute. reflexivity. Qed.

(** On a table in which a held-out row shares its label with another row,
    the assignment of that row's fold fails. *)
Example train_repeated_label_raises :
  (train Dummy.model 0%nat 1%nat (5 : Z) false (Dummy.world0 Dummy.df11_repeated)).1
  = Raise (ValueError "Must have equal len keys and value when setting with an iterable").
Proof. vm_compute. reflexivity. Qed.

(** The search of the base class does not fail before any trial runs:
    asked for one trial, it fails with the study holding that trial, as
    failed; asked for none, it fails with another exception. *)
Lemma base_search_not_before_any_trial :
  ¬ fails_before_any_trial (BaseModel 0%nat 1%nat) 1 (Dummy.world0 Dummy.df10) ∧
  ¬ fails_before_any_trial (BaseModel 0%nat 1%nat) 0 (Dummy.world0 Dummy.df10).
Proof.
  split; intros (msg & w' & Hrun & Hno).
  - assert (w' = Dummy.base_search_run.2) as ->
      by (unfold Dummy.base_search_run; by rewrite Hrun).
    assert (studies Dummy.base_search_run.2 !! 0%nat
            = Some {| sampler_seed := 42;
                      trials := [ {| ft_trial := 42; ft_state := FAIL |} ] |}) as Hst
      by (vm_compute; reflexivity).
    apply Hno in Hst. discriminate Hst.
  - assert ((hyperparameter_search (BaseModel 0%nat 1%nat) 0
               (Dummy.world0 Dummy.df10)).1
            = Raise (ValueError "No trials are completed yet.")) as Hval
      by (vm_compute; reflexivity).
    rewrite Hrun in Hval. discriminate Hval.
Qed.

Lemma hyperparameter_search_base_raises_witness :
  ∃ study w',
    hyperparameter_search (BaseModel 0%nat 1%nat) 3 (Dummy.world0 Dummy.df10)
      = (Raise (NotImplementedError "Base classes need to implement objective()."), w') ∧
    (study ∉ dom (studies (Dummy.world0 Dummy.df10))) ∧
    studies w' !! study
      = Some {| sampler_seed := 42;
                trials := [ {| ft_trial := ask 42 []; ft_state := FAIL |} ] |} ∧
    heap w' = heap (Dummy.world0 Dummy.df10) ∧
    stdout w' = stdout (Dummy.world0 Dummy.df10).
Proof.
  apply (hyperparameter_search_base_raises 0%nat 1%nat 3 (Dummy.world0 Dummy.df10)).
  lia.
Defined.

Lemma hyperparameter_search_verbosity_witness :
  Dummy.search_run.1 = Ok 42 ∧
  ∃ study w2 r2 w3,
    verbosity w2 = WARNING ∧
    optimize study (λ trial, objective (Dummy.SearchModel 0%nat 1%nat) trial 0%nat 1%nat)
      2 w2 = (r2, w3) ∧
    match r2 with
    | Ok _ => verbosity Dummy.search_run.2 = verbosity (Dummy.world0 Dummy.df10)
    | Raise e =>
        Dummy.search_run.1 = Raise e ∧ Dummy.search_run.2 = w3 ∧
        ((∀ trial w r w',
            objective (Dummy.SearchModel 0%nat 1%nat) trial 0%nat 1%nat w = (r, w') →
            verbosity w' = verbosity w) →
         verbosity Dummy.search_run.2 = WARNING)
    end.
Proof.
  split; [vm_compute; reflexivity|].
  apply (hyperparameter_search_verbosity (Dummy.SearchModel 0%nat 1%nat) 2
           (Dummy.world0 Dummy.df10) 0%nat 1%nat (Dummy.world0 Dummy.df10)
           Dummy.search_run.1 Dummy.search_run.2).
  - reflexivity.
  - vm_compute. reflexivity.
Defined.

(** The search of the base class starts at verbosity 20 and ends, with its
    exception, at [WARNING]. *)
Example base_search_leaves_warning :
  Dummy.base_search_run.1
    = Raise (NotImplementedError "Base classes need to implement objective().") ∧
  verbosity (Dummy.world0 Dummy.df10) = 20 ∧
  verbosity Dummy.base_search_run.2 = 30.
Proof. vm_compute. done. Qed.

(** Asked for no trial, the search of the base class does not reach the
    objective. *)
Example base_search_without_trials :
  (hyperparameter_search (BaseModel 0%nat 1%nat) 0 (Dummy.world0 Dummy.df10)).1
  = Raise (ValueError "No trials are completed yet.").
Proof. vm_compute. reflexivity. Qed.

(** The two classes of the source file: [BaseOptunaCVModel] binds no name
    and is not registered. *)
Example BaseOptunaCVModel_not_registered :
  REGISTRY (class_stmt "BaseOptunaCVModel" BaseModel_cls None interp0).2 = ∅.
Proof. reflexivity. Qed.

(** Two subclasses that bind the same name: the registry ends with the
    second. *)
Example registry_two_subclasses :
  let first := class_stmt "XGBModel" BaseModel_cls (Some (Some "xgb")) interp0 in
  let second := class_stmt "OtherModel" BaseModel_cls (Some (Some "xgb")) first.2 in
  REGISTRY first.2 !! "xgb" = Some 1%nat ∧ REGISTRY second.2 !! "xgb" = Some 2%nat.
Proof. vm_compute. done. Qed.

(** * Further properties at the concrete instance *)

Lemma registry_follows_attribute_lookup_witness :
  let i := (class_stmt "XGBModel" BaseModel_cls (Some (Some "xgb")) interp0).2 in
  getattr_name 1%nat i = Some "xgb" ∧
  (REGISTRY (class_stmt "TunedXGB" 1%nat None i).2 !! "xgb" = Some 2%nat ∧
   (class_stmt "TunedXGB" 1%nat None i).1 ≠ 1%nat) ∧
  REGISTRY (class_stmt "TunedXGB" 1%nat (Some None) i).2 = REGISTRY i.
Proof.
  split; [reflexivity|].
  apply (registry_follows_attribute_lookup "TunedXGB" 1%nat "xgb"
           (class_stmt "XGBModel" BaseModel_cls (Some (Some "xgb")) interp0).2).
  reflexivity.
Defined.

Lemma train_factory_failure_witness :
  ∃ w',
    train (BaseModel 0%nat 1%nat) 0%nat 1%nat (5 : Z) true (Dummy.world0 Dummy.df10)
    = (Raise (NotImplementedError "Base classes need to implement init_classifier()."),
       w') ∧
    stdout w' = stdout (Dummy.world0 Dummy.df10).
Proof.
  apply (train_factory_failure (BaseModel 0%nat 1%nat) 0%nat 1%nat
           (5 : @Params Dummy.types) true
           (Dummy.world0 Dummy.df10) Dummy.df10 Dummy.test3).
  - reflexivity.
  - reflexivity.
  - reflexivity.
Defined.

Lemma train_console_output_witness :
  Dummy.train_run10_verbose.1
    = Ok (Dummy.oof10, Dummy.test_preds10, Dummy.acc10) ∧
  ∃ df' s0 s1 s2 s3 s4,
    train_steps Dummy.model 0%nat 1%nat (5 : Z) true (Dummy.world0 Dummy.df10)
      df' [s0; s1; s2; s3; s4] ∧
    stdout Dummy.train_run10_verbose.2
    = stdout (Dummy.world0 Dummy.df10)
      ++ [ fold_line 0 (st_acc s0); fold_line 1 (st_acc s1);
           fold_line 2 (st_acc s2); fold_line 3 (st_acc s3);
           fold_line 4 (st_acc s4); overall_line Dummy.acc10 ].
Proof.
  split; [vm_compute; reflexivity|].
  apply (train_console_output Dummy.model 0%nat 1%nat (5 : Z) true
           (Dummy.world0 Dummy.df10) Dummy.oof10 Dummy.test_preds10 Dummy.acc10
           Dummy.train_run10_verbose.2).
  vm_compute. reflexivity.
Defined.

Lemma train_folds_see_caller_rows_witness :
  ∃ df' steps,
    train_steps Dummy.model 0%nat 1%nat (5 : Z) false (Dummy.world0 Dummy.df10)
      df' steps ∧
    st_fold <$> steps = range5 ∧
    ∀ s, s ∈ steps →
      let train := filter (λ r, kfold r ≠ st_fold s) Dummy.df10 in
      let val := filter (λ r, kfold r = st_fold s) Dummy.df10 in
      ∃ clf0 fit_params clf val_pred val_proba,
        init_classifier Dummy.model (5 : @Params Dummy.types) = Ok clf0 ∧
        extra_fit_parameters Dummy.model
          (row_view train_drop <$> train) (Transported <$> train)
          (row_view train_drop <$> val) (Transported <$> val) (5 : @Params Dummy.types)
          = Ok fit_params ∧
        fit clf0 (row_view train_drop <$> train) (Transported <$> train) fit_params
          = Ok clf ∧
        predict clf (row_view train_drop <$> val) = Ok val_pred ∧
        accuracy_score (Transported <$> val) val_pred = Ok (st_acc s) ∧
        predict_proba clf (row_view train_drop <$> val) = Ok val_proba.
Proof.
  apply (train_folds_see_caller_rows Dummy.model 0%nat 1%nat (5 : Z) false
           (Dummy.world0 Dummy.df10) Dummy.df10 Dummy.oof10 Dummy.test_preds10
           Dummy.acc10 Dummy.train_run10.2).
  - intros c r. reflexivity.
  - reflexivity.
  - vm_compute. reflexivity.
Defined.

Lemma train_depends_on_tables_only_witness :
  (train Dummy.model 0%nat 1%nat (5 : Z) false (Dummy.world0 Dummy.df10)).1
  = (train Dummy.model 5%nat 7%nat (5 : Z) true Dummy.world1).1.
Proof.
  apply (train_depends_on_tables_only Dummy.model (5 : Z) false true
           0%nat 1%nat 5%nat 7%nat (Dummy.world0 Dummy.df10) Dummy.world1
           Dummy.df10 Dummy.df10_with_preds Dummy.test3).
  - reflexivity.
  - reflexivity.
  - reflexivity.
  - reflexivity.
  - reflexivity.
Defined.

Lemma hyperparameter_search_no_trials_witness :
  ∃ study w',
    hyperparameter_search (Dummy.SearchModel 0%nat 1%nat) (-3)
      (Dummy.world0 Dummy.df10)
      = (Raise (ValueError "No trials are completed yet."), w') ∧
    (study ∉ dom (studies (Dummy.world0 Dummy.df10))) ∧
    studies w'
      = <[study := {| sampler_seed := 42; trials := [] |}]>
          (studies (Dummy.world0 Dummy.df10)) ∧
    verbosity w' = verbosity (Dummy.world0 Dummy.df10) ∧
    heap w' = heap (Dummy.world0 Dummy.df10) ∧
    stdout w' = stdout (Dummy.world0 Dummy.df10).
Proof.
  apply (hyperparameter_search_no_trials (Dummy.SearchModel 0%nat 1%nat) (-3)
           (Dummy.world0 Dummy.df10) 0%nat 1%nat (Dummy.world0 Dummy.df10)).
  - reflexivity.
  - lia.
Defined.

Lemma train_malformed_tables_witness :
  (∃ w', train Dummy.model 0%nat 0%nat (5 : Z) true (Dummy.world0 Dummy.df10)
         = (Raise (KeyError "['PassengerId'] not found in axis"), w') ∧
         stdout w' = stdout (Dummy.world0 Dummy.df10)) ∧
  (∃ w', train Dummy.model 1%nat 1%nat (5 : Z) true (Dummy.world0 Dummy.df10)
         = (Raise (KeyError "kfold"), w') ∧
         stdout w' = stdout (Dummy.world0 Dummy.df10)).
Proof.
  split.
  - apply (train_malformed_tables Dummy.model 0%nat 0%nat (5 : Z) true
             (Dummy.world0 Dummy.df10) (TrainFrame Dummy.df10)
             (TrainFrame Dummy.df10)); reflexivity.
  - apply (train_malformed_tables Dummy.model 1%nat 1%nat (5 : Z) true
             (Dummy.world0 Dummy.df10) (TestFrame Dummy.test3)
             (TestFrame Dummy.test3)); reflexivity.
Defined.

Lemma train_oof_missing_iff_witness :
  length Dummy.oof12 = length Dummy.df12 ∧
  ∀ i r, Dummy.df12 !! i = Some r →
    ∃ c, Dummy.oof12 !! i = Some c ∧ (c = NA ↔ ¬ (0 ≤ kfold r < 5)).
Proof.
  apply (train_oof_missing_iff Dummy.model 0%nat 1%nat (5 : Z) false
           (Dummy.world0 Dummy.df12) Dummy.df12 Dummy.oof12
           Dummy.test_preds12 Dummy.acc10 Dummy.train_run12.2).
  - reflexivity.
  - exact NoDup_labels_df12.
  - vm_compute. reflexivity.
Defined.
